(** * OSLToyRenderer: renderer services of osltoy

    A shallow embedding of [src/osltoy/osltoyrenderer.cpp]: the camera
    configuration, the transform catalog, the attribute dispatch table with
    its getters, the userdata fallback and the shader-globals template,
    followed by the properties established about them.

    Conventions of the embedding:
    - [float] is IEEE binary32 and [double] binary64, both carried by
      [spec_float] with round-to-nearest-even ([SpecFloat]);
    - [int] is [Z] (no arithmetic is done on the integers of this file
      except conversion to [float]);
    - [ustringhash] is the interned string it stands for;
    - [std::unordered_map] is [gmap];
    - a [void* val] output buffer is a finite map from element index to the
      element stored there; an index that was never stored to is absent;
    - a C++ member function reading and writing [this] takes the renderer
      state and returns what it writes. *)

From Stdlib Require Import ZArith Bool List Floats.SpecFloat.
From stdpp Require Import gmap strings list fin_maps.

Local Open Scope Z_scope.

(** ** Floating point *)

Module F32.
Definition prec : Z := 24.
Definition emax : Z := 128.
Definition add := SFadd prec emax.
Definition sub := SFsub prec emax.
Definition mul := SFmul prec emax.
Definition div := SFdiv prec emax.
Definition neg := SFopp.
(** Conversion [int -> float]. *)
Definition of_int (z : Z) : spec_float := binary_normalize prec emax z 0 false.
(** The literal whose decimal expansion is the fraction [n / d]. *)
Definition lit (n : Z) (d : positive) : spec_float :=
  div (match n with
       | Z0 => S754_zero false
       | Zpos p => S754_finite false p 0
       | Zneg p => S754_finite true p 0
       end) (S754_finite false d 0).
Definition zero : spec_float := S754_zero false.
Definition one : spec_float := of_int 1.
(** The next float up and the next float down. *)
Definition succ := SFsucc prec emax.
Definition pred := SFpred prec emax.
End F32.

Module F64.
Definition prec : Z := 53.
Definition emax : Z := 1024.
Definition sub := SFsub prec emax.
Definition mul := SFmul prec emax.
Definition div := SFdiv prec emax.
Definition lit (n : Z) (d : positive) : spec_float :=
  div (match n with
       | Z0 => S754_zero false
       | Zpos p => S754_finite false p 0
       | Zneg p => S754_finite true p 0
       end) (S754_finite false d 0).
(** Conversion [float -> double] (exact). *)
Definition of_float (x : spec_float) : spec_float :=
  match x with
  | S754_finite s m e => binary_round prec emax s m e
  | _ => x
  end.
(** Conversion [double -> float] (rounds). *)
Definition to_float (x : spec_float) : spec_float :=
  match x with
  | S754_finite s m e => binary_round F32.prec F32.emax s m e
  | _ => x
  end.
End F64.

Declare Scope f32_scope.
Delimit Scope f32_scope with f32.
Infix "+" := F32.add : f32_scope.
Infix "-" := F32.sub : f32_scope.
Infix "*" := F32.mul : f32_scope.
Infix "/" := F32.div : f32_scope.
Notation "- x" := (F32.neg x) : f32_scope.

(** [M_PI] of <math.h>, a [double] literal. *)
Definition M_PI : spec_float := F64.lit 314159265358979323846 100000000000000000000.

(** ** Imath: vectors and 4x4 matrices *)

Module Imath.

Record Vec3 := mkVec3 { vx : spec_float; vy : spec_float; vz : spec_float }.

(** [Matrix44<float>], row major: [x_ij] is [x[i][j]].  The constructor
    takes the sixteen entries in this order. *)
Record Matrix44 := mkMatrix44 {
  x00 : spec_float; x01 : spec_float; x02 : spec_float; x03 : spec_float;
  x10 : spec_float; x11 : spec_float; x12 : spec_float; x13 : spec_float;
  x20 : spec_float; x21 : spec_float; x22 : spec_float; x23 : spec_float;
  x30 : spec_float; x31 : spec_float; x32 : spec_float; x33 : spec_float }.

(** [makeIdentity] and the default constructor. *)
Definition identity : Matrix44 :=
  let o := F32.one in let z := F32.zero in
  mkMatrix44 o z z z  z o z z  z z o z  z z z o.

(** One entry of a product: [a0*b0 + a1*b1 + a2*b2 + a3*b3], evaluated
    left to right in [float]. *)
Definition dot4 (a0 a1 a2 a3 b0 b1 b2 b3 : spec_float) : spec_float :=
  (a0 * b0 + a1 * b1 + a2 * b2 + a3 * b3)%f32.

(** [operator*]: [(a * b)[i][j] = sum_k a[i][k] * b[k][j]]. *)
Definition mul (a b : Matrix44) : Matrix44 :=
  mkMatrix44
    (dot4 (x00 a) (x01 a) (x02 a) (x03 a) (x00 b) (x10 b) (x20 b) (x30 b))
    (dot4 (x00 a) (x01 a) (x02 a) (x03 a) (x01 b) (x11 b) (x21 b) (x31 b))
    (dot4 (x00 a) (x01 a) (x02 a) (x03 a) (x02 b) (x12 b) (x22 b) (x32 b))
    (dot4 (x00 a) (x01 a) (x02 a) (x03 a) (x03 b) (x13 b) (x23 b) (x33 b))
    (dot4 (x10 a) (x11 a) (x12 a) (x13 a) (x00 b) (x10 b) (x20 b) (x30 b))
    (dot4 (x10 a) (x11 a) (x12 a) (x13 a) (x01 b) (x11 b) (x21 b) (x31 b))
    (dot4 (x10 a) (x11 a) (x12 a) (x13 a) (x02 b) (x12 b) (x22 b) (x32 b))
    (dot4 (x10 a) (x11 a) (x12 a) (x13 a) (x03 b) (x13 b) (x23 b) (x33 b))
    (dot4 (x20 a) (x21 a) (x22 a) (x23 a) (x00 b) (x10 b) (x20 b) (x30 b))
    (dot4 (x20 a) (x21 a) (x22 a) (x23 a) (x01 b) (x11 b) (x21 b) (x31 b))
    (dot4 (x20 a) (x21 a) (x22 a) (x23 a) (x02 b) (x12 b) (x22 b) (x32 b))
    (dot4 (x20 a) (x21 a) (x22 a) (x23 a) (x03 b) (x13 b) (x23 b) (x33 b))
    (dot4 (x30 a) (x31 a) (x32 a) (x33 a) (x00 b) (x10 b) (x20 b) (x30 b))
    (dot4 (x30 a) (x31 a) (x32 a) (x33 a) (x01 b) (x11 b) (x21 b) (x31 b))
    (dot4 (x30 a) (x31 a) (x32 a) (x33 a) (x02 b) (x12 b) (x22 b) (x32 b))
    (dot4 (x30 a) (x31 a) (x32 a) (x33 a) (x03 b) (x13 b) (x23 b) (x33 b)).

(** [multVecMatrix]: the point [src] as a row vector [(x, y, z, 1)] times
    the matrix, followed by the homogeneous divide. *)
Definition multVecMatrix (m : Matrix44) (src : Vec3) : Vec3 :=
  let a := (vx src * x00 m + vy src * x10 m + vz src * x20 m + x30 m)%f32 in
  let b := (vx src * x01 m + vy src * x11 m + vz src * x21 m + x31 m)%f32 in
  let c := (vx src * x02 m + vy src * x12 m + vz src * x22 m + x32 m)%f32 in
  let w := (vx src * x03 m + vy src * x13 m + vz src * x23 m + x33 m)%f32 in
  mkVec3 (a / w)%f32 (b / w)%f32 (c / w)%f32.

End Imath.

Export Imath.
Infix "**" := Imath.mul (at level 40, left associativity).

(** ** OIIO: type descriptors *)

Module TypeDesc.

Inductive BASETYPE :=
  UNKNOWN | NONE | UINT8 | INT8 | UINT16 | INT16 | UINT32 | INT32
| UINT64 | INT64 | HALF | FLOAT | DOUBLE | STRING | PTR.

Inductive AGGREGATE := SCALAR | VEC2 | VEC3 | VEC4 | MATRIX33 | MATRIX44.

Inductive VECSEMANTICS :=
  NOXFORM | COLOR | POINT | VECTOR | NORMAL | TIMECODE | KEYCODE | RATIONAL | BOX.

Record t := mk {
  basetype : BASETYPE;
  aggregate : AGGREGATE;
  vecsemantics : VECSEMANTICS;
  arraylen : Z }.

#[export] Instance BASETYPE_eq_dec : EqDecision BASETYPE.
Proof. solve_decision. Defined.
#[export] Instance AGGREGATE_eq_dec : EqDecision AGGREGATE.
Proof. solve_decision. Defined.
#[export] Instance VECSEMANTICS_eq_dec : EqDecision VECSEMANTICS.
Proof. solve_decision. Defined.
#[export] Instance t_eq_dec : EqDecision t.
Proof. solve_decision. Defined.

(** [TypeDesc(BASETYPE btype)] and [TypeDesc(BASETYPE btype, int arraylen)]. *)
Definition scalar (b : BASETYPE) : t := mk b SCALAR NOXFORM 0.
Definition array (b : BASETYPE) (n : Z) : t := mk b SCALAR NOXFORM n.

(** [operator==(const TypeDesc&, const TypeDesc&)]: all four fields. *)
Definition eqb (a b : t) : bool := bool_decide (a = b).

(** [operator==(const TypeDesc&, BASETYPE)]: a non-array scalar of that
    base type, whatever its semantics hint. *)
Definition eqb_base (a : t) (b : BASETYPE) : bool :=
  bool_decide (basetype a = b) && bool_decide (aggregate a = SCALAR)
  && bool_decide (arraylen a = 0).

Definition basesize (b : BASETYPE) : nat :=
  match b with
  | UNKNOWN | NONE => 0
  | UINT8 | INT8 => 1
  | UINT16 | INT16 | HALF => 2
  | UINT32 | INT32 | FLOAT => 4
  | UINT64 | INT64 | DOUBLE | STRING | PTR => 8
  end%nat.

Definition aggregate_count (a : AGGREGATE) : nat :=
  match a with
  | SCALAR => 1 | VEC2 => 2 | VEC3 => 3 | VEC4 => 4
  | MATRIX33 => 9 | MATRIX44 => 16
  end%nat.

(** [size()]: bytes taken by a value of the type. *)
Definition size (a : t) : nat :=
  let n : nat := if 0 <? arraylen a then Z.to_nat (arraylen a) else 1%nat in
  (n * (aggregate_count (aggregate a) * basesize (basetype a)))%nat.

End TypeDesc.

Abbreviation TypeDesc := TypeDesc.t.
Definition TypeFloat : TypeDesc := TypeDesc.scalar TypeDesc.FLOAT.
Definition TypeInt : TypeDesc := TypeDesc.scalar TypeDesc.INT32.
Definition TypeString : TypeDesc := TypeDesc.scalar TypeDesc.STRING.

Definition TypeFloatArray2 : TypeDesc := TypeDesc.array TypeDesc.FLOAT 2.
Definition TypeFloatArray4 : TypeDesc := TypeDesc.array TypeDesc.FLOAT 4.
Definition TypeIntArray2 : TypeDesc := TypeDesc.array TypeDesc.INT32 2.

(** ** Interned names *)

Abbreviation ustringhash := string.

(** Modelled from the spec: the names of [OSL/hashes.h] and, below, of
    [rs_strdecls.h], two headers the source includes; each constant is the
    string its identifier spells, with [:] where the identifier has the
    scope separator. *)
Module OSL.
Module Hashes.
Definition camera : ustringhash := "camera".
Definition screen : ustringhash := "screen".
Definition NDC : ustringhash := "NDC".
End Hashes.
End OSL.

(** Modelled from the spec: the names of [rs_strdecls.h]. *)
Module RS.
Module Hashes.
Definition osl_version : ustringhash := "osl:version".
Definition camera_resolution : ustringhash := "camera:resolution".
Definition camera_projection : ustringhash := "camera:projection".
Definition camera_pixelaspect : ustringhash := "camera:pixelaspect".
Definition camera_screen_window : ustringhash := "camera:screen_window".
Definition camera_fov : ustringhash := "camera:fov".
Definition camera_clip : ustringhash := "camera:clip".
Definition camera_clip_near : ustringhash := "camera:clip_near".
Definition camera_clip_far : ustringhash := "camera:clip_far".
Definition camera_shutter : ustringhash := "camera:shutter".
Definition camera_shutter_open : ustringhash := "camera:shutter_open".
Definition camera_shutter_close : ustringhash := "camera:shutter_close".
Definition perspective : ustringhash := "perspective".
Definition raster : ustringhash := "raster".
Definition mouse : ustringhash := "mouse".
Definition options : ustringhash := "options".
Definition blahblah : ustringhash := "blahblah".
Definition s : ustringhash := "s".
Definition t : ustringhash := "t".
End Hashes.
End RS.

(** [ustringhash::empty()]. *)
Definition ustringhash_empty (h : ustringhash) : bool := bool_decide (h = "").

(** ** Output buffers *)

(** One element of a [void* val] buffer, as the cast at the store types it:
    [((float* )val)[i]], [((int* )val)[i]], [((ustringhash* )val)[i]]. *)
Inductive value :=
| VFloat (f : spec_float)
| VInt (i : Z)
| VString (h : ustringhash).

Abbreviation buffer := (gmap nat value).

(** [((T* )val)[i] = v]. *)
Definition store (val : buffer) (i : nat) (v : value) : buffer := <[i := v]> val.

(** [memset((char* )val + off, 0, len)] on a buffer of [float]: the bytes
    [off .. off + len - 1] are the elements [off / 4 .. (off + len) / 4 - 1],
    and the all-zero pattern is [+0.0f]. *)
Definition memset_zero (val : buffer) (off len : nat) : buffer :=
  foldr (fun i b => store b i (VFloat F32.zero)) val (seq (off / 4) (len / 4)).

(** ** Shader globals *)

(** The fields of [ShaderGlobals] this file reads or writes.  The two
    transformation pointers are carried as the matrices they point to. *)
Record ShaderGlobals := mkShaderGlobals {
  sg_dPdx : Vec3; sg_dPdy : Vec3; sg_dPdz : Vec3;
  sg_N : Vec3; sg_Ng : Vec3;
  sg_u : spec_float; sg_dudx : spec_float; sg_dudy : spec_float;
  sg_v : spec_float; sg_dvdx : spec_float; sg_dvdy : spec_float;
  sg_dPdu : Vec3; sg_dPdv : Vec3;
  sg_shader2common : Matrix44;
  sg_object2common : Matrix44;
  sg_surfacearea : spec_float;
  sg_raytype : Z }.

(** ** The renderer *)

(** The getters of the dispatch table (member function pointers). *)
Inductive AttrGetter :=
| get_osl_version_ptr
| get_camera_resolution_ptr
| get_camera_projection_ptr
| get_camera_pixelaspect_ptr
| get_camera_screen_window_ptr
| get_camera_fov_ptr
| get_camera_clip_ptr
| get_camera_clip_near_ptr
| get_camera_clip_far_ptr
| get_camera_shutter_ptr
| get_camera_shutter_open_ptr
| get_camera_shutter_close_ptr.

Record OSLToyRenderer := mkOSLToyRenderer {
  m_world_to_camera : Matrix44;
  m_projection : ustringhash;
  m_fov : spec_float;
  m_pixelaspect : spec_float;
  m_hither : spec_float;
  m_yon : spec_float;
  m_shutter : spec_float * spec_float;
  m_screen_window : spec_float * spec_float * spec_float * spec_float;
  m_xres : Z;
  m_yres : Z;
  m_mouse_x : Z;
  m_mouse_y : Z;
  m_named_xforms : gmap ustringhash Matrix44;
  m_attr_getters : gmap ustringhash AttrGetter;
  m_shaderglobals_template : ShaderGlobals }.

(** *** Camera configuration *)

Definition camera_params (this : OSLToyRenderer) (world_to_camera : Matrix44)
    (projection : ustringhash) (hfov hither yon : spec_float) (xres yres : Z)
  : OSLToyRenderer :=
  let pixelaspect := F32.one in
  let frame_aspect := (F32.of_int xres / F32.of_int yres * pixelaspect)%f32 in
  {| m_world_to_camera := world_to_camera;
     m_projection := projection;
     m_fov := hfov;
     m_pixelaspect := pixelaspect;
     m_hither := hither;
     m_yon := yon;
     m_shutter := (F32.zero, F32.one);
     m_screen_window := ((- frame_aspect)%f32, F32.neg F32.one, frame_aspect, F32.one);
     m_xres := xres;
     m_yres := yres;
     m_mouse_x := m_mouse_x this;
     m_mouse_y := m_mouse_y this;
     m_named_xforms := m_named_xforms this;
     m_attr_getters := m_attr_getters this;
     m_shaderglobals_template := m_shaderglobals_template this |}.

(** *** Transform catalog and resolution *)

(** [get_matrix] on a transformation handle, with and without a time: the
    handle points to the matrix. *)
Definition get_matrix_xform_time (this : OSLToyRenderer) (result xform : Matrix44)
    (time : spec_float) : bool * Matrix44 :=
  (true, xform).

Definition get_matrix_xform (this : OSLToyRenderer) (result xform : Matrix44)
  : bool * Matrix44 :=
  (true, xform).

(** [get_matrix] on a name, with and without a time. *)
Definition get_matrix_time (this : OSLToyRenderer) (result : Matrix44)
    (from : ustringhash) (time : spec_float) : bool * Matrix44 :=
  match m_named_xforms this !! from with
  | Some found => (true, found)
  | None => (false, result)
  end.

Definition get_matrix (this : OSLToyRenderer) (result : Matrix44)
    (from : ustringhash) : bool * Matrix44 :=
  match m_named_xforms this !! from with
  | Some found => (true, found)
  | None => (false, result)
  end.

Definition name_transform (this : OSLToyRenderer) (name : string) (xform : Matrix44)
  : OSLToyRenderer :=
  {| m_world_to_camera := m_world_to_camera this;
     m_projection := m_projection this;
     m_fov := m_fov this;
     m_pixelaspect := m_pixelaspect this;
     m_hither := m_hither this;
     m_yon := m_yon this;
     m_shutter := m_shutter this;
     m_screen_window := m_screen_window this;
     m_xres := m_xres this;
     m_yres := m_yres this;
     m_mouse_x := m_mouse_x this;
     m_mouse_y := m_mouse_y this;
     m_named_xforms := <[name := xform]> (m_named_xforms this);
     m_attr_getters := m_attr_getters this;
     m_shaderglobals_template := m_shaderglobals_template this |}.

Section LibraryFunctions.

(** [tanf] of the C library and [Matrix44::invert] of Imath are used by
    the renderer and not defined by it. *)
Variable tanf : spec_float -> spec_float.
Variable invert : Matrix44 -> Matrix44.

Definition get_inverse_matrix (this : OSLToyRenderer) (result : Matrix44)
    (to : ustringhash) (time : spec_float) : bool * Matrix44 :=
  let z := F32.of_int 0 in
  let o := F32.of_int 1 in
  if bool_decide (to = OSL.Hashes.camera) || bool_decide (to = OSL.Hashes.screen)
     || bool_decide (to = OSL.Hashes.NDC) || bool_decide (to = RS.Hashes.raster)
  then
    let M := m_world_to_camera this in
    let M :=
      if bool_decide (to = OSL.Hashes.screen) || bool_decide (to = OSL.Hashes.NDC)
         || bool_decide (to = RS.Hashes.raster)
      then
        let depthrange :=
          F64.to_float (F64.sub (F64.of_float (m_yon this))
                                (F64.of_float (m_hither this))) in
        let M :=
          if bool_decide (m_projection this = RS.Hashes.perspective) then
            let tanhalffov :=
              tanf (F64.to_float
                      (F64.div
                         (F64.mul (F64.of_float (F32.lit 5 10 * m_fov this)%f32) M_PI)
                         (F64.lit 180 1))) in
            let camera_to_screen :=
              mkMatrix44 (o / tanhalffov)%f32 z z z
                         z (o / tanhalffov)%f32 z z
                         z z (m_yon this / depthrange)%f32 o
                         z z (- m_yon this * m_hither this / depthrange)%f32 z in
            M ** camera_to_screen
          else
            let camera_to_screen :=
              mkMatrix44 o z z z
                         z o z z
                         z z (o / depthrange)%f32 z
                         z z (- m_hither this / depthrange)%f32 o in
            M ** camera_to_screen in
        if bool_decide (to = OSL.Hashes.NDC) || bool_decide (to = RS.Hashes.raster)
        then
          let screenleft := F32.neg (F32.lit 1 1) in
          let screenwidth := F32.lit 2 1 in
          let screenbottom := F32.neg (F32.lit 1 1) in
          let screenheight := F32.lit 2 1 in
          let screen_to_ndc :=
            mkMatrix44 (o / screenwidth)%f32 z z z
                       z (o / screenheight)%f32 z z
                       z z o z
                       (- screenleft / screenwidth)%f32
                       (- screenbottom / screenheight)%f32 z o in
          let M := M ** screen_to_ndc in
          if bool_decide (to = RS.Hashes.raster) then
            let ndc_to_raster :=
              mkMatrix44 (F32.of_int (m_xres this)) z z z
                         z (F32.of_int (m_yres this)) z z
                         z z o z
                         z z z o in
            M ** ndc_to_raster
          else M
        else M
      else M in
    (true, M)
  else
    match m_named_xforms this !! to with
    | Some found => (true, invert found)
    | None => (false, result)
    end.

End LibraryFunctions.

(** *** Attribute getters *)

Section Attributes.

(** The version number the build defines. *)
Variable OSL_VERSION : Z.

Definition get_osl_version (this : OSLToyRenderer) (sg : ShaderGlobals)
    (derivs : bool) (object : ustringhash) (type : TypeDesc)
    (name : ustringhash) (val : buffer) : bool * buffer :=
  if TypeDesc.eqb type TypeInt then
    (true, store val 0 (VInt OSL_VERSION))
  else (false, val).

Definition get_camera_resolution (this : OSLToyRenderer) (sg : ShaderGlobals)
    (derivs : bool) (object : ustringhash) (type : TypeDesc)
    (name : ustringhash) (val : buffer) : bool * buffer :=
  if TypeDesc.eqb type TypeIntArray2 then
    let val := store val 0 (VInt (m_xres this)) in
    let val := store val 1 (VInt (m_yres this)) in
    (true, val)
  else (false, val).

Definition get_camera_projection (this : OSLToyRenderer) (sg : ShaderGlobals)
    (derivs : bool) (object : ustringhash) (type : TypeDesc)
    (name : ustringhash) (val : buffer) : bool * buffer :=
  if TypeDesc.eqb type TypeString then
    (true, store val 0 (VString (m_projection this)))
  else (false, val).

Definition get_camera_fov (this : OSLToyRenderer) (sg : ShaderGlobals)
    (derivs : bool) (object : ustringhash) (type : TypeDesc)
    (name : ustringhash) (val : buffer) : bool * buffer :=
  if TypeDesc.eqb type TypeFloat then
    let val := store val 0 (VFloat (m_fov this)) in
    let val := if derivs
               then memset_zero val (TypeDesc.size type) (2 * TypeDesc.size type)
               else val in
    (true, val)
  else (false, val).

Definition get_camera_pixelaspect (this : OSLToyRenderer) (sg : ShaderGlobals)
    (derivs : bool) (object : ustringhash) (type : TypeDesc)
    (name : ustringhash) (val : buffer) : bool * buffer :=
  if TypeDesc.eqb type TypeFloat then
    let val := store val 0 (VFloat (m_pixelaspect this)) in
    let val := if derivs
               then memset_zero val (TypeDesc.size type) (2 * TypeDesc.size type)
               else val in
    (true, val)
  else (false, val).

Definition get_camera_clip (this : OSLToyRenderer) (sg : ShaderGlobals)
    (derivs : bool) (object : ustringhash) (type : TypeDesc)
    (name : ustringhash) (val : buffer) : bool * buffer :=
  if TypeDesc.eqb type TypeFloatArray2 then
    let val := store val 0 (VFloat (m_hither this)) in
    let val := store val 1 (VFloat (m_yon this)) in
    let val := if derivs
               then memset_zero val (TypeDesc.size type) (2 * TypeDesc.size type)
               else val in
    (true, val)
  else (false, val).

Definition get_camera_clip_near (this : OSLToyRenderer) (sg : ShaderGlobals)
    (derivs : bool) (object : ustringhash) (type : TypeDesc)
    (name : ustringhash) (val : buffer) : bool * buffer :=
  if TypeDesc.eqb type TypeFloat then
    let val := store val 0 (VFloat (m_hither this)) in
    let val := if derivs
               then memset_zero val (TypeDesc.size type) (2 * TypeDesc.size type)
               else val in
    (true, val)
  else (false, val).

Definition get_camera_clip_far (this : OSLToyRenderer) (sg : ShaderGlobals)
    (derivs : bool) (object : ustringhash) (type : TypeDesc)
    (name : ustringhash) (val : buffer) : bool * buffer :=
  if TypeDesc.eqb type TypeFloat then
    let val := store val 0 (VFloat (m_yon this)) in
    let val := if derivs
               then memset_zero val (TypeDesc.size type) (2 * TypeDesc.size type)
               else val in
    (true, val)
  else (false, val).

Definition get_camera_shutter (this : OSLToyRenderer) (sg : ShaderGlobals)
    (derivs : bool) (object : ustringhash) (type : TypeDesc)
    (name : ustringhash) (val : buffer) : bool * buffer :=
  if TypeDesc.eqb type TypeFloatArray2 then
    let val := store val 0 (VFloat (fst (m_shutter this))) in
    let val := store val 1 (VFloat (snd (m_shutter this))) in
    let val := if derivs
               then memset_zero val (TypeDesc.size type) (2 * TypeDesc.size type)
               else val in
    (true, val)
  else (false, val).

Definition get_camera_shutter_open (this : OSLToyRenderer) (sg : ShaderGlobals)
    (derivs : bool) (object : ustringhash) (type : TypeDesc)
    (name : ustringhash) (val : buffer) : bool * buffer :=
  if TypeDesc.eqb type TypeFloat then
    let val := store val 0 (VFloat (fst (m_shutter this))) in
    let val := if derivs
               then memset_zero val (TypeDesc.size type) (2 * TypeDesc.size type)
               else val in
    (true, val)
  else (false, val).

Definition get_camera_shutter_close (this : OSLToyRenderer) (sg : ShaderGlobals)
    (derivs : bool) (object : ustringhash) (type : TypeDesc)
    (name : ustringhash) (val : buffer) : bool * buffer :=
  if TypeDesc.eqb type TypeFloat then
    let val := store val 0 (VFloat (snd (m_shutter this))) in
    let val := if derivs
               then memset_zero val (TypeDesc.size type) (2 * TypeDesc.size type)
               else val in
    (true, val)
  else (false, val).

Definition get_camera_screen_window (this : OSLToyRenderer) (sg : ShaderGlobals)
    (derivs : bool) (object : ustringhash) (type : TypeDesc)
    (name : ustringhash) (val : buffer) : bool * buffer :=
  if TypeDesc.eqb type TypeFloatArray4 then
    let '(w0, w1, w2, w3) := m_screen_window this in
    let val := store val 0 (VFloat w0) in
    let val := store val 1 (VFloat w1) in
    let val := store val 2 (VFloat w2) in
    let val := store val 3 (VFloat w3) in
    let val := if derivs
               then memset_zero val (TypeDesc.size type) (2 * TypeDesc.size type)
               else val in
    (true, val)
  else (false, val).

(** [(this->*getter)(sg, derivatives, object, type, name, val)]. *)
Definition call_getter (getter : AttrGetter) :
    OSLToyRenderer -> ShaderGlobals -> bool -> ustringhash -> TypeDesc ->
    ustringhash -> buffer -> bool * buffer :=
  match getter with
  | get_osl_version_ptr => get_osl_version
  | get_camera_resolution_ptr => get_camera_resolution
  | get_camera_projection_ptr => get_camera_projection
  | get_camera_pixelaspect_ptr => get_camera_pixelaspect
  | get_camera_screen_window_ptr => get_camera_screen_window
  | get_camera_fov_ptr => get_camera_fov
  | get_camera_clip_ptr => get_camera_clip
  | get_camera_clip_near_ptr => get_camera_clip_near
  | get_camera_clip_far_ptr => get_camera_clip_far
  | get_camera_shutter_ptr => get_camera_shutter
  | get_camera_shutter_open_ptr => get_camera_shutter_open
  | get_camera_shutter_close_ptr => get_camera_shutter_close
  end.

(** *** Userdata fallback *)

Definition get_userdata (this : OSLToyRenderer) (derivatives : bool)
    (name : ustringhash) (type : TypeDesc) (sg : ShaderGlobals) (val : buffer)
  : bool * buffer :=
  if bool_decide (name = RS.Hashes.s) && TypeDesc.eqb type TypeFloat then
    let val := store val 0 (VFloat (sg_u sg)) in
    let val := if derivatives
               then store (store val 1 (VFloat (sg_dudx sg))) 2 (VFloat (sg_dudy sg))
               else val in
    (true, val)
  else if bool_decide (name = RS.Hashes.t) && TypeDesc.eqb type TypeFloat then
    let val := store val 0 (VFloat (sg_v sg)) in
    let val := if derivatives
               then store (store val 1 (VFloat (sg_dvdx sg))) 2 (VFloat (sg_dvdy sg))
               else val in
    (true, val)
  else (false, val).

(** *** Attribute resolution *)

(** What [get_array_attribute] does once the dispatch table has no entry
    for the name: the mouse scope, the test constant, the userdata
    fallback. *)
Definition get_array_attribute_unlisted (this : OSLToyRenderer)
    (sg : ShaderGlobals) (derivatives : bool) (object : ustringhash)
    (type : TypeDesc) (name : ustringhash) (index : Z) (val : buffer)
  : bool * buffer :=
  let after_mouse :=
    if bool_decide (object = RS.Hashes.options)
       && bool_decide (name = RS.Hashes.blahblah)
       && TypeDesc.eqb type TypeFloat
    then
      (true, store val 0 (VFloat (F64.to_float (F64.lit 314159 100000))))
    else if ustringhash_empty object && bool_decide (index = -1) then
      get_userdata this derivatives name type sg val
    else (false, val) in
  if bool_decide (object = RS.Hashes.mouse) then
    if bool_decide (name = RS.Hashes.s)
       && TypeDesc.eqb_base type TypeDesc.FLOAT
       && (0 <=? m_mouse_x this)
    then
      (true, store val 0
               (VFloat ((F32.of_int (m_mouse_x this) + F32.lit 5 10)
                        / F32.of_int (m_xres this))%f32))
    else if bool_decide (name = RS.Hashes.t)
       && TypeDesc.eqb_base type TypeDesc.FLOAT
       && (0 <=? m_mouse_y this)
    then
      (true, store val 0
               (VFloat ((F32.of_int (m_mouse_y this) + F32.lit 5 10)
                        / F32.of_int (m_yres this))%f32))
    else after_mouse
  else after_mouse.

Definition get_array_attribute (this : OSLToyRenderer) (sg : ShaderGlobals)
    (derivatives : bool) (object : ustringhash) (type : TypeDesc)
    (name : ustringhash) (index : Z) (val : buffer) : bool * buffer :=
  match m_attr_getters this !! name with
  | Some getter => call_getter getter this sg derivatives object type name val
  | None =>
      get_array_attribute_unlisted this sg derivatives object type name index val
  end.

Definition get_attribute (this : OSLToyRenderer) (sg : ShaderGlobals)
    (derivatives : bool) (object : ustringhash) (type : TypeDesc)
    (name : ustringhash) (val : buffer) : bool * buffer :=
  get_array_attribute this sg derivatives object type name (-1) val.

End Attributes.

(** *** Construction *)

(** The dispatch table the constructor fills. *)
Definition constructor_attr_getters : gmap ustringhash AttrGetter :=
  <[RS.Hashes.camera_shutter_close := get_camera_shutter_close_ptr]>
  (<[RS.Hashes.camera_shutter_open := get_camera_shutter_open_ptr]>
  (<[RS.Hashes.camera_shutter := get_camera_shutter_ptr]>
  (<[RS.Hashes.camera_clip_far := get_camera_clip_far_ptr]>
  (<[RS.Hashes.camera_clip_near := get_camera_clip_near_ptr]>
  (<[RS.Hashes.camera_clip := get_camera_clip_ptr]>
  (<[RS.Hashes.camera_fov := get_camera_fov_ptr]>
  (<[RS.Hashes.camera_screen_window := get_camera_screen_window_ptr]>
  (<[RS.Hashes.camera_pixelaspect := get_camera_pixelaspect_ptr]>
  (<[RS.Hashes.camera_projection := get_camera_projection_ptr]>
  (<[RS.Hashes.camera_resolution := get_camera_resolution_ptr]>
  (<[RS.Hashes.osl_version := get_osl_version_ptr]> ∅))))))))))).

(** The template the constructor builds from the resolution in force:
    [memset] to zero, then the fields it assigns ([dPdz] is assigned twice,
    the second value stays). *)
Definition default_shaderglobals (xres yres : Z) : ShaderGlobals :=
  let z := F32.zero in
  let f (n : Z) := F32.of_int n in
  {| sg_dPdx := mkVec3 (F32.lit 1 1) (F32.lit 0 1) (F32.lit 0 1);
     sg_dPdy := mkVec3 (F32.lit 0 1) (F32.lit 1 1) (F32.lit 0 1);
     sg_dPdz := mkVec3 (F32.lit 0 1) (F32.lit 0 1) (f 0);
     sg_N := mkVec3 (f 0) (f 0) (f 1);
     sg_Ng := mkVec3 (f 0) (f 0) (f 1);
     sg_u := z;
     sg_dudx := (F32.lit 1 1 / f xres)%f32;
     sg_dudy := z;
     sg_v := z;
     sg_dvdx := z;
     sg_dvdy := (F32.lit 1 1 / f yres)%f32;
     sg_dPdu := mkVec3 (f xres) (F32.lit 0 1) (F32.lit 0 1);
     sg_dPdv := mkVec3 (F32.lit 0 1) (f yres) (F32.lit 0 1);
     sg_shader2common := Imath.identity;
     sg_object2common := Imath.identity;
     sg_surfacearea := f 1;
     sg_raytype := 0 |}.

(** Modelled from the spec: the members as the class declaration of
    [osltoyrenderer.h] initialises them, before the constructor body runs.
    The pointer coordinates start at the sentinel -1 that stands for unset,
    and both maps start empty.  The camera members have no initialiser:
    [camera_params] assigns every one of them before anything reads them, so
    the values put here are never seen. *)
Definition members_before_constructor : OSLToyRenderer :=
  {| m_world_to_camera := Imath.identity;
     m_projection := "";
     m_fov := F32.zero;
     m_pixelaspect := F32.zero;
     m_hither := F32.zero;
     m_yon := F32.zero;
     m_shutter := (F32.zero, F32.zero);
     m_screen_window := (F32.zero, F32.zero, F32.zero, F32.zero);
     m_xres := 0;
     m_yres := 0;
     m_mouse_x := -1;
     m_mouse_y := -1;
     m_named_xforms := ∅;
     m_attr_getters := ∅;
     m_shaderglobals_template := default_shaderglobals 0 0 |}.

(** [OSLToyRenderer::OSLToyRenderer()]: default camera, dispatch table,
    template. *)
Definition OSLToyRenderer_new : OSLToyRenderer :=
  let this :=
    camera_params members_before_constructor Imath.identity RS.Hashes.perspective
                  (F32.lit 90 1) (F32.lit 1 10) (F32.lit 1000 1) 256 256 in
  {| m_world_to_camera := m_world_to_camera this;
     m_projection := m_projection this;
     m_fov := m_fov this;
     m_pixelaspect := m_pixelaspect this;
     m_hither := m_hither this;
     m_yon := m_yon this;
     m_shutter := m_shutter this;
     m_screen_window := m_screen_window this;
     m_xres := m_xres this;
     m_yres := m_yres this;
     m_mouse_x := m_mouse_x this;
     m_mouse_y := m_mouse_y this;
     m_named_xforms := m_named_xforms this;
     m_attr_getters := constructor_attr_getters;
     m_shaderglobals_template := default_shaderglobals (m_xres this) (m_yres this) |}.

(** ** Vocabulary of the properties *)

(** *** The chain of built-in spaces *)

Section Chain.

Variable tanf : spec_float -> spec_float.

(** The depth range, [yon - hither], taken in [double] and kept as a
    [float]. *)
Definition depthrange (this : OSLToyRenderer) : spec_float :=
  F64.to_float (F64.sub (F64.of_float (m_yon this)) (F64.of_float (m_hither this))).

(** Half of the field of view, in radians: [0.5f * fov * M_PI / 180.0]. *)
Definition half_fov_radians (fov : spec_float) : spec_float :=
  F64.to_float
    (F64.div (F64.mul (F64.of_float (F32.lit 5 10 * fov)%f32) M_PI) (F64.lit 180 1)).

(** Stage 2 for a perspective camera: parameterised by [1 / tan (fov / 2)]
    and by the depth range. *)
Definition perspective_to_screen (this : OSLToyRenderer) : Matrix44 :=
  let z := F32.zero in
  let o := F32.one in
  let cot := (o / tanf (half_fov_radians (m_fov this)))%f32 in
  mkMatrix44 cot z z z
             z cot z z
             z z (m_yon this / depthrange this)%f32 o
             z z (- m_yon this * m_hither this / depthrange this)%f32 z.

(** Stage 2 for any other camera: depth is normalised, x and y are kept. *)
Definition orthographic_to_screen (this : OSLToyRenderer) : Matrix44 :=
  let z := F32.zero in
  let o := F32.one in
  mkMatrix44 o z z z
             z o z z
             z z (o / depthrange this)%f32 z
             z z (- m_hither this / depthrange this)%f32 o.

(** Stage 2, selected by the stored projection tag. *)
Definition camera_to_screen (this : OSLToyRenderer) : Matrix44 :=
  if bool_decide (m_projection this = RS.Hashes.perspective)
  then perspective_to_screen this
  else orthographic_to_screen this.

(** Stage 3: the screen window [-1, 1] x [-1, 1] onto the unit square,
    [x -> x / 2 + 1 / 2] and the same for [y]. *)
Definition screen_to_NDC : Matrix44 :=
  let z := F32.zero in
  let o := F32.one in
  let h := F32.lit 1 2 in
  mkMatrix44 h z z z
             z h z z
             z z o z
             h h z o.

(** Stage 4: scale by the resolution. *)
Definition NDC_to_raster (this : OSLToyRenderer) : Matrix44 :=
  let z := F32.zero in
  let o := F32.one in
  mkMatrix44 (F32.of_int (m_xres this)) z z z
             z (F32.of_int (m_yres this)) z z
             z z o z
             z z z o.

(** The chain, cut after [stages] stages. *)
Definition builtin_chain (this : OSLToyRenderer) (stages : nat) : Matrix44 :=
  match stages with
  | 1%nat => m_world_to_camera this
  | 2%nat => m_world_to_camera this ** camera_to_screen this
  | 3%nat => m_world_to_camera this ** camera_to_screen this ** screen_to_NDC
  | _ => m_world_to_camera this ** camera_to_screen this ** screen_to_NDC
         ** NDC_to_raster this
  end.

End Chain.

(** The names [get_inverse_matrix] resolves by itself. *)
Definition builtin_spaces : list ustringhash :=
  [OSL.Hashes.camera; OSL.Hashes.screen; OSL.Hashes.NDC; RS.Hashes.raster].

(** *** Accuracy of [tanf] *)

(** The floats at most [k] steps away from [x], on either side. *)
Fixpoint floats_around (k : nat) (x : spec_float) : list spec_float :=
  match k with
  | O => [x]
  | S k' => Nat.iter k F32.pred x :: Nat.iter k F32.succ x :: floats_around k' x
  end.

Definition within_ulps (k : nat) (x t : spec_float) : Prop := In t (floats_around k x).

(** *** Pixels *)

(** [v] lies in [c - 0.5, c + 0.5]. *)
Definition within_half_pixel (v : spec_float) (c : Z) : bool :=
  SFleb (F32.of_int c - F32.lit 5 10)%f32 v && SFleb v (F32.of_int c + F32.lit 5 10)%f32.

(** The default camera of the constructor, set on any renderer. *)
Definition configure_default (this : OSLToyRenderer) : OSLToyRenderer :=
  camera_params this Imath.identity RS.Hashes.perspective
                (F32.lit 90 1) (F32.lit 1 10) (F32.lit 1000 1) 256 256.

(** The point of camera space on the view axis, at distance one. *)
Definition view_axis_unit : Vec3 := mkVec3 F32.zero F32.zero F32.one.

(** *** Camera state *)

(** Everything [camera_params] is in charge of. *)
Definition camera_state (this : OSLToyRenderer) :=
  (m_world_to_camera this, m_projection this, m_fov this, m_pixelaspect this,
   m_hither this, m_yon this, m_shutter this, m_screen_window this,
   m_xres this, m_yres this).

(** *** Example renderers *)

(** The renderer with the pointer at [(x, y)]. *)
Definition with_mouse (this : OSLToyRenderer) (x y : Z) : OSLToyRenderer :=
  {| m_world_to_camera := m_world_to_camera this;
     m_projection := m_projection this;
     m_fov := m_fov this;
     m_pixelaspect := m_pixelaspect this;
     m_hither := m_hither this;
     m_yon := m_yon this;
     m_shutter := m_shutter this;
     m_screen_window := m_screen_window this;
     m_xres := m_xres this;
     m_yres := m_yres this;
     m_mouse_x := x;
     m_mouse_y := y;
     m_named_xforms := m_named_xforms this;
     m_attr_getters := m_attr_getters this;
     m_shaderglobals_template := m_shaderglobals_template this |}.

(** The renderers a program can build: the constructor, then any number
    of camera configurations, registrations and pointer moves.  Nothing else
    in the source writes a member. *)
Inductive reachable : OSLToyRenderer -> Prop :=
| reachable_new : reachable OSLToyRenderer_new
| reachable_camera_params this world_to_camera projection hfov hither yon xres yres :
    reachable this ->
    reachable (camera_params this world_to_camera projection hfov hither yon xres yres)
| reachable_name_transform this name xform :
    reachable this -> reachable (name_transform this name xform)
| reachable_mouse this x y :
    reachable this -> reachable (with_mouse this x y).

(** A matrix that is not the identity. *)
Definition scale2 : Matrix44 :=
  let z := F32.zero in
  let o := F32.one in
  let t := F32.of_int 2 in
  mkMatrix44 t z z z  z t z z  z z t z  z z z o.

(** *** Layout of a camera attribute *)

(** The camera getters whose value is made of [float]s: the type each one
    answers to and the value it gives. *)
Definition float_camera_attribute (getter : AttrGetter) (this : OSLToyRenderer)
  : option (TypeDesc * list spec_float) :=
  match getter with
  | get_camera_fov_ptr => Some (TypeFloat, [m_fov this])
  | get_camera_pixelaspect_ptr => Some (TypeFloat, [m_pixelaspect this])
  | get_camera_clip_ptr => Some (TypeFloatArray2, [m_hither this; m_yon this])
  | get_camera_clip_near_ptr => Some (TypeFloat, [m_hither this])
  | get_camera_clip_far_ptr => Some (TypeFloat, [m_yon this])
  | get_camera_shutter_ptr =>
      Some (TypeFloatArray2, [fst (m_shutter this); snd (m_shutter this)])
  | get_camera_shutter_open_ptr => Some (TypeFloat, [fst (m_shutter this)])
  | get_camera_shutter_close_ptr => Some (TypeFloat, [snd (m_shutter this)])
  | get_camera_screen_window_ptr =>
      let '(w0, w1, w2, w3) := m_screen_window this in
      Some (TypeFloatArray4, [w0; w1; w2; w3])
  | get_osl_version_ptr | get_camera_resolution_ptr | get_camera_projection_ptr => None
  end.

(** [out] is [val] with the value [vs] stored from element 0, followed by
    two blocks of zeros of the same length (d/dx and d/dy); the rest of the
    buffer is as it was. *)
Definition value_and_zero_derivatives (val out : buffer) (vs : list spec_float) : Prop :=
  let n := length vs in
  (forall (i : nat) v, vs !! i = Some v -> out !! i = Some (VFloat v))
  /\ (forall i : nat, (n <= i < 3 * n)%nat -> out !! i = Some (VFloat F32.zero))
  /\ (forall i : nat, (3 * n <= i)%nat -> out !! i = val !! i).

(** The constructed renderer, configured again at 512 x 512. *)
Definition reconfigured_512 : OSLToyRenderer :=
  camera_params OSLToyRenderer_new Imath.identity RS.Hashes.perspective
                (F32.lit 90 1) (F32.lit 1 10) (F32.lit 1000 1) 512 512.

(** A version number for the examples. *)
Definition example_version : Z := 11400.

(** [vs] stored as floats from element [i] on. *)
Fixpoint store_floats (val : buffer) (i : nat) (vs : list spec_float) : buffer :=
  match vs with
  | [] => val
  | v :: vs' => store_floats (store val i (VFloat v)) (S i) vs'
  end.

(** *** Further vocabulary *)

(** [supports]: no optional feature is implemented. *)
Definition supports (this : OSLToyRenderer) (feature : string) : Z := 0.

(** The type each getter answers to. *)
Definition getter_type (getter : AttrGetter) : TypeDesc :=
  match getter with
  | get_osl_version_ptr => TypeInt
  | get_camera_resolution_ptr => TypeIntArray2
  | get_camera_projection_ptr => TypeString
  | get_camera_pixelaspect_ptr | get_camera_fov_ptr
  | get_camera_clip_near_ptr | get_camera_clip_far_ptr
  | get_camera_shutter_open_ptr | get_camera_shutter_close_ptr => TypeFloat
  | get_camera_clip_ptr | get_camera_shutter_ptr => TypeFloatArray2
  | get_camera_screen_window_ptr => TypeFloatArray4
  end.

(** How many elements of its base type a value of the type holds. *)
Definition numelements (type : TypeDesc) : nat :=
  (TypeDesc.size type / TypeDesc.basesize (TypeDesc.basetype type))%nat.

(** How many elements a query may store: the value, and with derivatives
    two more blocks of the same length. *)
Definition elements_allowed (derivatives : bool) (type : TypeDesc) : nat :=
  ((if derivatives then 3 else 1) * numelements type)%nat.

(** A float that is neither zero, infinite nor NaN. *)
Definition is_finite_nonzero (x : spec_float) : bool :=
  match x with
  | S754_finite _ _ _ => true
  | _ => false
  end.

(** ** Properties *)

(** *** Transform resolution *)

(** The literals of [get_inverse_matrix] are the entries the chain is written
    with. *)
Lemma literal_values :
  F32.of_int 0 = F32.zero /\ F32.of_int 1 = F32.one
  /\ (F32.of_int 1 / F32.lit 2 1)%f32 = F32.lit 1 2
  /\ (- F32.neg (F32.lit 1 1) / F32.lit 2 1)%f32 = F32.lit 1 2.
Proof. repeat split; vm_compute; reflexivity. Qed.

Section ChainProperties.

Variable tanf : spec_float -> spec_float.
Variable invert : Matrix44 -> Matrix44.
Variables (this : OSLToyRenderer) (result : Matrix44) (time : spec_float).

Lemma get_inverse_matrix_camera :
  get_inverse_matrix tanf invert this result OSL.Hashes.camera time
  = (true, builtin_chain tanf this 1).
Proof. reflexivity. Qed.

Lemma get_inverse_matrix_screen :
  get_inverse_matrix tanf invert this result OSL.Hashes.screen time
  = (true, builtin_chain tanf this 2).
Proof.
  unfold get_inverse_matrix, builtin_chain, camera_to_screen.
  destruct (bool_decide (m_projection this = RS.Hashes.perspective)); reflexivity.
Qed.

Lemma get_inverse_matrix_NDC :
  get_inverse_matrix tanf invert this result OSL.Hashes.NDC time
  = (true, builtin_chain tanf this 3).
Proof.
  unfold get_inverse_matrix, builtin_chain, camera_to_screen.
  destruct (bool_decide (m_projection this = RS.Hashes.perspective)); reflexivity.
Qed.

Lemma get_inverse_matrix_raster :
  get_inverse_matrix tanf invert this result RS.Hashes.raster time
  = (true, builtin_chain tanf this 4).
Proof.
  unfold get_inverse_matrix, builtin_chain, camera_to_screen.
  destruct (bool_decide (m_projection this = RS.Hashes.perspective)); reflexivity.
Qed.

(** A name outside the built-in ones goes to the catalog. *)
Lemma get_inverse_matrix_named (to : ustringhash) :
  to ∉ builtin_spaces ->
  get_inverse_matrix tanf invert this result to time
  = match m_named_xforms this !! to with
    | Some found => (true, invert found)
    | None => (false, result)
    end.
Proof.
  intros Hto. unfold get_inverse_matrix.
  assert (Hc : to <> OSL.Hashes.camera) by (intros ->; apply Hto; set_solver).
  assert (Hs : to <> OSL.Hashes.screen) by (intros ->; apply Hto; set_solver).
  assert (Hn : to <> OSL.Hashes.NDC) by (intros ->; apply Hto; set_solver).
  assert (Hr : to <> RS.Hashes.raster) by (intros ->; apply Hto; set_solver).
  rewrite !bool_decide_eq_false_2 by assumption. reflexivity.
Qed.

End ChainProperties.

(** C2: each built-in space name resolves, and to the chain cut at its
    stage: the stored world-to-camera matrix for "camera"; times the
    camera-to-screen matrix the projection tag selects for "screen"; times
    the remap of the screen window onto the unit square for "NDC"; times the
    scale by the resolution for "raster". *)
Theorem builtin_spaces_resolve_to_truncated_chain :
  forall tanf invert this result time,
    let W := m_world_to_camera this in
    let S := if bool_decide (m_projection this = RS.Hashes.perspective)
             then perspective_to_screen tanf this
             else orthographic_to_screen this in
    get_inverse_matrix tanf invert this result "camera" time = (true, W)
    /\ get_inverse_matrix tanf invert this result "screen" time = (true, W ** S)
    /\ get_inverse_matrix tanf invert this result "NDC" time
       = (true, W ** S ** screen_to_NDC)
    /\ get_inverse_matrix tanf invert this result "raster" time
       = (true, W ** S ** screen_to_NDC ** NDC_to_raster this).
Proof.
  intros. subst W S. split; [|split; [|split]].
  - apply get_inverse_matrix_camera.
  - apply get_inverse_matrix_screen.
  - apply get_inverse_matrix_NDC.
  - apply get_inverse_matrix_raster.
Qed.

(** The remap of stage 3 sends the corners of the screen window to the
    corners of the unit square. *)
Lemma screen_to_NDC_corners :
  let lo := F32.neg F32.one in
  let hi := F32.one in
  multVecMatrix screen_to_NDC (mkVec3 lo lo F32.zero) = mkVec3 F32.zero F32.zero F32.zero
  /\ multVecMatrix screen_to_NDC (mkVec3 hi hi F32.zero) = mkVec3 F32.one F32.one F32.zero.
Proof. split; vm_compute; reflexivity. Qed.

(** Half of 90 degrees is the [float] next to pi / 4. *)
Lemma half_fov_radians_of_default :
  half_fov_radians (F32.lit 90 1) = S754_finite false 13176795 (-24).
Proof. vm_compute. reflexivity. Qed.

(** C1, as stated, fails: on the default camera the forward resolution of
    "raster" by name does not succeed; the catalog is empty and the built-in
    names are not known to [get_matrix]. *)
Lemma forward_raster_on_default_camera_fails :
  get_matrix (configure_default OSLToyRenderer_new) Imath.identity "raster"
  = (false, Imath.identity).
Proof. vm_compute. reflexivity. Qed.

(** C1, amended: on the default camera it is [get_inverse_matrix] that
    resolves "raster"; it succeeds, and its matrix sends the point of the view
    axis at distance one to the pixel (128, 128) exactly, hence within half a
    pixel, as soon as [tanf] is within 4 ulps of 1 at half the field of view
    (45 degrees, in radians). *)
Theorem inverse_raster_maps_view_axis_to_image_centre :
  forall tanf invert this result time,
    within_ulps 4 F32.one (tanf (half_fov_radians (F32.lit 90 1))) ->
    exists M,
      get_inverse_matrix tanf invert (configure_default this) result "raster" time
      = (true, M)
      /\ vx (multVecMatrix M view_axis_unit) = F32.of_int 128
      /\ vy (multVecMatrix M view_axis_unit) = F32.of_int 128
      /\ within_half_pixel (vx (multVecMatrix M view_axis_unit)) 128 = true
      /\ within_half_pixel (vy (multVecMatrix M view_axis_unit)) 128 = true.
Proof.
  intros tanf invert this result time Htan.
  eexists. split; [apply get_inverse_matrix_raster|].
  unfold builtin_chain, camera_to_screen, perspective_to_screen.
  change (m_projection (configure_default this)) with RS.Hashes.perspective.
  change (m_fov (configure_default this)) with (F32.lit 90 1).
  remember (tanf (half_fov_radians (F32.lit 90 1))) as t eqn:Et. clear Et.
  unfold within_ulps in Htan. vm_compute in Htan.
  repeat (destruct Htan as [Htan|Htan]; [subst t; vm_compute; tauto|]).
  destruct Htan.
Qed.

Lemma inverse_raster_maps_view_axis_to_image_centre_witness :
  within_ulps 4 F32.one F32.one
  /\ exists M,
      get_inverse_matrix (fun _ => F32.one) (fun m => m)
        (configure_default OSLToyRenderer_new) Imath.identity "raster" F32.zero
      = (true, M)
      /\ vx (multVecMatrix M view_axis_unit) = F32.of_int 128
      /\ vy (multVecMatrix M view_axis_unit) = F32.of_int 128
      /\ within_half_pixel (vx (multVecMatrix M view_axis_unit)) 128 = true
      /\ within_half_pixel (vy (multVecMatrix M view_axis_unit)) 128 = true.
Proof.
  assert (H : within_ulps 4 F32.one F32.one).
  { unfold within_ulps. vm_compute. tauto. }
  split; [exact H|].
  apply (inverse_raster_maps_view_axis_to_image_centre
           (fun _ => F32.one) (fun m => m) OSLToyRenderer_new Imath.identity F32.zero).
  exact H.
Defined.

(** *** Named transforms *)

Lemma get_matrix_name_transform this name M result :
  get_matrix (name_transform this name M) result name = (true, M).
Proof. unfold get_matrix, name_transform; simpl. by rewrite lookup_insert_eq. Qed.

Lemma get_matrix_time_name_transform this name M result time :
  get_matrix_time (name_transform this name M) result name time = (true, M).
Proof. unfold get_matrix_time, name_transform; simpl. by rewrite lookup_insert_eq. Qed.

Lemma name_transform_twice this name M M2 :
  name_transform (name_transform this name M) name M2 = name_transform this name M2.
Proof. unfold name_transform; simpl. by rewrite insert_insert_eq. Qed.

Lemma get_inverse_matrix_name_transform tanf invert this name M result time :
  name ∉ builtin_spaces ->
  get_inverse_matrix tanf invert (name_transform this name M) result name time
  = (true, invert M).
Proof.
  intros Hname. rewrite get_inverse_matrix_named by assumption.
  unfold name_transform; simpl. by rewrite lookup_insert_eq.
Qed.

(** A registration under a built-in name is not seen by the inverse
    resolution: the chain answers. *)
Lemma get_inverse_matrix_builtin_ignores_catalog tanf invert this M result time :
  get_inverse_matrix tanf invert (name_transform this "camera" M) result "camera" time
  = (true, m_world_to_camera this).
Proof. reflexivity. Qed.

(** C3: once [name] is registered with [M], the forward resolution of
    [name] succeeds with exactly [M]; the inverse resolution of a name that is
    not built in succeeds with the inverse of [M] as [Matrix44::invert]
    computes it; and a second registration of [name] with [M2] leaves the
    renderer as if only [M2] had been registered, so that both resolutions
    answer from [M2]. *)
Theorem named_transform_resolves_to_last_registration :
  forall tanf invert this name M M2 result time,
    let this1 := name_transform this name M in
    let this2 := name_transform this1 name M2 in
    get_matrix this1 result name = (true, M)
    /\ get_matrix_time this1 result name time = (true, M)
    /\ (name ∉ builtin_spaces ->
        get_inverse_matrix tanf invert this1 result name time = (true, invert M))
    /\ this2 = name_transform this name M2
    /\ get_matrix this2 result name = (true, M2)
    /\ get_matrix_time this2 result name time = (true, M2)
    /\ (name ∉ builtin_spaces ->
        get_inverse_matrix tanf invert this2 result name time = (true, invert M2)).
Proof.
  intros. subst this1 this2.
  split; [apply get_matrix_name_transform|].
  split; [apply get_matrix_time_name_transform|].
  split; [apply get_inverse_matrix_name_transform|].
  split; [apply name_transform_twice|].
  split; [apply get_matrix_name_transform|].
  split; [apply get_matrix_time_name_transform|].
  apply get_inverse_matrix_name_transform.
Qed.

Lemma named_transform_resolves_to_last_registration_witness :
  ("myspace" ∉ builtin_spaces)
  /\ get_matrix (name_transform OSLToyRenderer_new "myspace" scale2)
       Imath.identity "myspace" = (true, scale2)
  /\ get_inverse_matrix (fun x => x) (fun m => m)
       (name_transform OSLToyRenderer_new "myspace" scale2)
       Imath.identity "myspace" F32.zero = (true, scale2)
  /\ get_matrix
       (name_transform (name_transform OSLToyRenderer_new "myspace" scale2)
          "myspace" Imath.identity)
       scale2 "myspace" = (true, Imath.identity).
Proof.
  assert (Hname : "myspace" ∉ builtin_spaces).
  { unfold builtin_spaces. intros Hin. apply list_elem_of_In in Hin.
    simpl in Hin. repeat (destruct Hin as [Hin|Hin]; [discriminate Hin|]).
    exact Hin. }
  pose proof (named_transform_resolves_to_last_registration
                (fun x => x) (fun m => m) OSLToyRenderer_new "myspace" scale2
                Imath.identity Imath.identity F32.zero) as (H1 & _ & H3 & _ & _ & _ & _).
  pose proof (named_transform_resolves_to_last_registration
                (fun x => x) (fun m => m) OSLToyRenderer_new "myspace" scale2
                Imath.identity scale2 F32.zero) as (_ & _ & _ & _ & H5 & _ & _).
  split; [exact Hname|].
  split; [exact H1|].
  split; [exact (H3 Hname)|].
  exact H5.
Defined.

(** The forward resolution by name reads nothing of the renderer but the
    catalog. *)
Lemma get_matrix_reads_only_the_catalog this this' result from :
  m_named_xforms this = m_named_xforms this' ->
  get_matrix this result from = get_matrix this' result from.
Proof. unfold get_matrix. by intros ->. Qed.

(** C9: the forward resolution of a name that was not registered fails and
    leaves the result matrix as it was, with or without a time, whatever the
    name; the built-in space names are no exception. *)
Theorem forward_resolution_of_unregistered_name_fails :
  forall this result from time,
    m_named_xforms this !! from = None ->
    get_matrix this result from = (false, result)
    /\ get_matrix_time this result from time = (false, result).
Proof.
  intros this result from time Hnone.
  unfold get_matrix, get_matrix_time. rewrite Hnone. split; reflexivity.
Qed.

Lemma forward_resolution_of_unregistered_name_fails_witness :
  Forall (fun from =>
            m_named_xforms OSLToyRenderer_new !! from = None
            /\ get_matrix OSLToyRenderer_new scale2 from = (false, scale2)
            /\ get_matrix_time OSLToyRenderer_new scale2 from F32.zero = (false, scale2))
         builtin_spaces.
Proof.
  unfold builtin_spaces.
  repeat (apply Forall_cons; split;
          [split; [reflexivity|
                   apply (forward_resolution_of_unregistered_name_fails
                            OSLToyRenderer_new scale2 _ F32.zero); reflexivity]|]).
  apply Forall_nil. exact I.
Defined.

(** *** Camera configuration *)

(** C7: [camera_params] sets the screen window to [-aspect, -1, aspect, 1]
    with [aspect = xres / yres * pixelaspect], the pixel aspect to 1 and the
    shutter to [0, 1], stores its arguments in the other camera members, and
    the camera state that results owes nothing to the renderer it was
    called on. *)
Theorem camera_params_replaces_all_camera_state :
  forall this this' world_to_camera projection hfov hither yon xres yres,
    let st := camera_params this world_to_camera projection hfov hither yon xres yres in
    let aspect := (F32.of_int xres / F32.of_int yres * m_pixelaspect st)%f32 in
    m_screen_window st = ((- aspect)%f32, F32.lit (-1) 1, aspect, F32.lit 1 1)
    /\ m_pixelaspect st = F32.lit 1 1
    /\ m_shutter st = (F32.lit 0 1, F32.lit 1 1)
    /\ (m_world_to_camera st, m_projection st, m_fov st, m_hither st, m_yon st,
        m_xres st, m_yres st)
       = (world_to_camera, projection, hfov, hither, yon, xres, yres)
    /\ camera_state st
       = camera_state
           (camera_params this' world_to_camera projection hfov hither yon xres yres).
Proof. intros. repeat split. Qed.

(** *** Shader globals template *)

(** The dispatch table and the template of a renderer are those the
    constructor made, whatever was called since. *)
Lemma reachable_keeps_table_and_template this :
  reachable this ->
  m_attr_getters this = constructor_attr_getters
  /\ m_shaderglobals_template this = default_shaderglobals 256 256.
Proof.
  induction 1 as [|this w p f h y xr yr _ IH|this name M _ IH|this x y _ IH];
    simpl; first [exact IH | split; reflexivity].
Qed.

(** C4, as stated, fails: after the constructed renderer is configured at
    512 x 512 its template still has the differentials of 256 x 256. *)
Lemma template_keeps_constructor_resolution :
  m_xres reconfigured_512 = 512
  /\ sg_dudx (m_shaderglobals_template reconfigured_512) = (F32.lit 1 1 / F32.of_int 256)%f32
  /\ sg_dudx (m_shaderglobals_template reconfigured_512) <> (F32.lit 1 1 / F32.of_int 512)%f32
  /\ sg_dPdu (m_shaderglobals_template reconfigured_512)
     <> mkVec3 (F32.of_int 512) F32.zero F32.zero.
Proof.
  split; [reflexivity|]. split; [reflexivity|].
  split; vm_compute; intros H; discriminate H.
Qed.

(** C4, amended: the template is built by the constructor, from the
    resolution 256 x 256 of its default camera; [camera_params] leaves the
    template as it is, so that after any call of it, on any renderer a
    program can build and for any resolution, the template still has
    [dudx = dvdy = 1 / 256], [dPdu = (256, 0, 0)] and [dPdv = (0, 256, 0)]. *)
Theorem template_is_built_by_the_constructor_only :
  forall this world_to_camera projection hfov hither yon xres yres,
    reachable this ->
    let sg :=
      m_shaderglobals_template
        (camera_params this world_to_camera projection hfov hither yon xres yres) in
    sg = m_shaderglobals_template this
    /\ sg = m_shaderglobals_template OSLToyRenderer_new
    /\ sg_dudx sg = (F32.lit 1 1 / F32.of_int 256)%f32
    /\ sg_dvdy sg = (F32.lit 1 1 / F32.of_int 256)%f32
    /\ sg_dPdu sg = mkVec3 (F32.of_int 256) F32.zero F32.zero
    /\ sg_dPdv sg = mkVec3 F32.zero (F32.of_int 256) F32.zero.
Proof.
  intros this w p f h y xres yres Hreach sg.
  assert (Hsg : sg = default_shaderglobals 256 256).
  { subst sg. simpl. apply (reachable_keeps_table_and_template this Hreach). }
  split; [reflexivity|]. rewrite Hsg. repeat split.
Qed.

Lemma template_is_built_by_the_constructor_only_witness :
  reachable OSLToyRenderer_new
  /\ m_xres reconfigured_512 = 512
  /\ sg_dudx (m_shaderglobals_template reconfigured_512)
     = (F32.lit 1 1 / F32.of_int 256)%f32
  /\ sg_dPdu (m_shaderglobals_template reconfigured_512)
     = mkVec3 (F32.of_int 256) F32.zero F32.zero.
Proof.
  pose proof (template_is_built_by_the_constructor_only
                OSLToyRenderer_new Imath.identity RS.Hashes.perspective
                (F32.lit 90 1) (F32.lit 1 10) (F32.lit 1000 1) 512 512
                reachable_new) as (_ & _ & Hdudx & _ & HdPdu & _).
  split; [exact reachable_new|]. split; [reflexivity|].
  split; [exact Hdudx | exact HdPdu].
Defined.

(** *** Attributes *)

Section AttributeProperties.

Variable OSL_VERSION : Z.
Variables (this : OSLToyRenderer) (sg : ShaderGlobals).

(** A getter that fails has stored nothing. *)
Lemma call_getter_false_unwritten getter derivs object type name val :
  fst (call_getter OSL_VERSION getter this sg derivs object type name val) = false ->
  call_getter OSL_VERSION getter this sg derivs object type name val = (false, val).
Proof.
  destruct getter; simpl;
    [ unfold get_osl_version | unfold get_camera_resolution
    | unfold get_camera_projection | unfold get_camera_pixelaspect
    | unfold get_camera_screen_window | unfold get_camera_fov
    | unfold get_camera_clip | unfold get_camera_clip_near
    | unfold get_camera_clip_far | unfold get_camera_shutter
    | unfold get_camera_shutter_open | unfold get_camera_shutter_close ];
    try destruct (m_screen_window this) as [[[w0 w1] w2] w3];
    destruct (TypeDesc.eqb type _); simpl; intros H;
    first [discriminate H | reflexivity].
Qed.

Lemma get_userdata_false_unwritten derivs name type val :
  fst (get_userdata this derivs name type sg val) = false ->
  get_userdata this derivs name type sg val = (false, val).
Proof.
  unfold get_userdata.
  destruct (bool_decide (name = RS.Hashes.s) && TypeDesc.eqb type TypeFloat);
    [intros H; discriminate H|].
  destruct (bool_decide (name = RS.Hashes.t) && TypeDesc.eqb type TypeFloat);
    [intros H; discriminate H|].
  reflexivity.
Qed.

Lemma get_array_attribute_unlisted_false_unwritten derivs object type name index val :
  fst (get_array_attribute_unlisted this sg derivs object type name index val) = false ->
  get_array_attribute_unlisted this sg derivs object type name index val = (false, val).
Proof.
  unfold get_array_attribute_unlisted.
  repeat match goal with
    | |- context [if ?c then _ else _] =>
        lazymatch c with
        | context [if _ then _ else _] => fail
        | _ => destruct c
        end
    end;
    try (intros H; discriminate H);
    try reflexivity;
    apply get_userdata_false_unwritten.
Qed.

Lemma get_array_attribute_false_unwritten derivs object type name index val :
  fst (get_array_attribute OSL_VERSION this sg derivs object type name index val) = false ->
  get_array_attribute OSL_VERSION this sg derivs object type name index val = (false, val).
Proof.
  unfold get_array_attribute. destruct (m_attr_getters this !! name).
  - apply call_getter_false_unwritten.
  - apply get_array_attribute_unlisted_false_unwritten.
Qed.

End AttributeProperties.

(** C10: when [get_array_attribute], [get_attribute] or [get_userdata]
    returns false, the buffer that comes back is the buffer that went in. *)
Theorem failed_attribute_query_leaves_buffer_unwritten :
  forall OSL_VERSION this sg derivatives object type name index val,
    (fst (get_array_attribute OSL_VERSION this sg derivatives object type name index val)
     = false ->
     snd (get_array_attribute OSL_VERSION this sg derivatives object type name index val)
     = val)
    /\ (fst (get_attribute OSL_VERSION this sg derivatives object type name val) = false ->
        snd (get_attribute OSL_VERSION this sg derivatives object type name val) = val)
    /\ (fst (get_userdata this derivatives name type sg val) = false ->
        snd (get_userdata this derivatives name type sg val) = val).
Proof.
  intros. split; [|split]; intros H.
  - by rewrite get_array_attribute_false_unwritten.
  - unfold get_attribute in *. by rewrite get_array_attribute_false_unwritten.
  - by rewrite get_userdata_false_unwritten.
Qed.

Lemma failed_attribute_query_leaves_buffer_unwritten_witness :
  fst (get_array_attribute example_version OSLToyRenderer_new
         (m_shaderglobals_template OSLToyRenderer_new) true "" TypeInt
         "camera:resolution" (-1) {[0%nat := VInt 7]}) = false
  /\ snd (get_array_attribute example_version OSLToyRenderer_new
            (m_shaderglobals_template OSLToyRenderer_new) true "" TypeInt
            "camera:resolution" (-1) {[0%nat := VInt 7]}) = {[0%nat := VInt 7]}
  /\ snd (get_attribute example_version OSLToyRenderer_new
            (m_shaderglobals_template OSLToyRenderer_new) true "" TypeInt
            "camera:resolution" {[0%nat := VInt 7]}) = {[0%nat := VInt 7]}
  /\ snd (get_userdata OSLToyRenderer_new true "camera:resolution" TypeInt
            (m_shaderglobals_template OSLToyRenderer_new) {[0%nat := VInt 7]})
     = {[0%nat := VInt 7]}.
Proof.
  pose proof (failed_attribute_query_leaves_buffer_unwritten
                example_version OSLToyRenderer_new
                (m_shaderglobals_template OSLToyRenderer_new) true "" TypeInt
                "camera:resolution" (-1) {[0%nat := VInt 7]}) as (H1 & H2 & H3).
  split; [vm_compute; reflexivity|].
  split; [apply H1; vm_compute; reflexivity|].
  split; [apply H2; vm_compute; reflexivity|].
  apply H3; vm_compute; reflexivity.
Defined.

(** A name the dispatch table lists is answered by its entry: the call
    returns what the getter returns, and when the getter declines the type
    the call fails with the buffer as it was. *)
Lemma listed_attribute_is_answered_by_its_getter :
  forall OSL_VERSION this sg derivatives object type name index val getter,
    m_attr_getters this !! name = Some getter ->
    get_array_attribute OSL_VERSION this sg derivatives object type name index val
    = call_getter OSL_VERSION getter this sg derivatives object type name val
    /\ (fst (call_getter OSL_VERSION getter this sg derivatives object type name val)
        = false ->
        get_array_attribute OSL_VERSION this sg derivatives object type name index val
        = (false, val)).
Proof.
  intros V this sg derivatives object type name index val getter Hlisted.
  unfold get_array_attribute. rewrite Hlisted.
  split; [reflexivity|]. apply call_getter_false_unwritten.
Qed.

(** On the table the constructor fills, no listed name is a name of the
    later steps: for a listed name, these would fail too. *)
Lemma constructor_names_unknown_to_later_steps this sg derivatives object type name index val getter :
  constructor_attr_getters !! name = Some getter ->
  get_array_attribute_unlisted this sg derivatives object type name index val
  = (false, val).
Proof.
  intros Hlisted.
  assert (Hs : name <> RS.Hashes.s) by (intros ->; vm_compute in Hlisted; discriminate).
  assert (Ht : name <> RS.Hashes.t) by (intros ->; vm_compute in Hlisted; discriminate).
  assert (Hb : name <> RS.Hashes.blahblah)
    by (intros ->; vm_compute in Hlisted; discriminate).
  unfold get_array_attribute_unlisted, get_userdata.
  rewrite !(bool_decide_eq_false_2 _ Hs), !(bool_decide_eq_false_2 _ Ht),
    !(bool_decide_eq_false_2 _ Hb).
  rewrite !andb_false_r. simpl.
  destruct (bool_decide (object = RS.Hashes.mouse));
    destruct (ustringhash_empty object && bool_decide (index = -1)); reflexivity.
Qed.

(** Hence on every renderer a program can build, a listed name whose
    getter declines fails the call, and the later steps would have failed
    as well. *)
Lemma reachable_declined_entry OSL_VERSION this sg derivatives object type name index
    val getter :
  reachable this ->
  m_attr_getters this !! name = Some getter ->
  fst (call_getter OSL_VERSION getter this sg derivatives object type name val)
  = false ->
  get_array_attribute OSL_VERSION this sg derivatives object type name index val
  = (false, val)
  /\ get_array_attribute_unlisted this sg derivatives object type name index val
     = (false, val).
Proof.
  intros Hreach Hlisted Hdeclines. split.
  - unfold get_array_attribute. rewrite Hlisted.
    by apply call_getter_false_unwritten.
  - apply constructor_names_unknown_to_later_steps with (getter := getter).
    destruct (reachable_keeps_table_and_template this Hreach) as [<- _].
    exact Hlisted.
Qed.



(** *** Rounding in binary32 *)

Lemma digits2_pos_bounds (p : positive) :
  2 ^ (Z.pos (digits2_pos p) - 1) <= Z.pos p < 2 ^ Z.pos (digits2_pos p).
Proof.
  induction p as [p IH|p IH|]; simpl digits2_pos.
  - rewrite Pos2Z.inj_succ.
    replace (Z.succ (Z.pos (digits2_pos p)) - 1) with (Z.succ (Z.pos (digits2_pos p) - 1)) by lia.
    rewrite !Z.pow_succ_r by lia. lia.
  - rewrite Pos2Z.inj_succ.
    replace (Z.succ (Z.pos (digits2_pos p)) - 1) with (Z.succ (Z.pos (digits2_pos p) - 1)) by lia.
    rewrite !Z.pow_succ_r by lia. lia.
  - simpl. lia.
Qed.

Lemma digits2_pos_unique (p : positive) (d : Z) :
  2 ^ (d - 1) <= Z.pos p < 2 ^ d -> Z.pos (digits2_pos p) = d.
Proof.
  intros [Hlo Hhi]. pose proof (digits2_pos_bounds p) as [Hlo' Hhi'].
  assert (0 < d).
  { destruct (Z_lt_le_dec 0 d); [assumption|].
    assert (2 ^ d <= 2 ^ 0) by (apply Z.pow_le_mono_r; lia). simpl in *. lia. }
  destruct (Z_lt_le_dec (Z.pos (digits2_pos p)) d) as [Hlt|Hge].
  - assert (2 ^ Z.pos (digits2_pos p) <= 2 ^ (d - 1)) by (apply Z.pow_le_mono_r; lia).
    lia.
  - destruct (Z_lt_le_dec d (Z.pos (digits2_pos p))) as [Hlt|Hle]; [|lia].
    assert (2 ^ d <= 2 ^ (Z.pos (digits2_pos p) - 1)) by (apply Z.pow_le_mono_r; lia).
    lia.
Qed.

(** A value of at most [2 ^ (- e)] has at most [1 - e] digits. *)
Lemma Zdigits2_le (m e : Z) :
  0 <= m <= 2 ^ (- e) -> e <= 0 -> Zdigits2 m + e <= 1.
Proof.
  intros [Hlo Hhi] He. destruct m as [|p|p]; simpl; [lia| |lia].
  pose proof (digits2_pos_bounds p) as [Hlo' _].
  destruct (Z_lt_le_dec (- e) (Z.pos (digits2_pos p) - 1)) as [Hlt|Hle]; [|lia].
  assert (2 ^ (- e + 1) <= 2 ^ (Z.pos (digits2_pos p) - 1))
    by (apply Z.pow_le_mono_r; lia).
  rewrite Z.pow_add_r in * by lia. lia.
Qed.

Lemma iter_pos_eq {A} (f : A -> A) (n : positive) (x : A) :
  SpecFloat.iter_pos f n x = Pos.iter f x n.
Proof.
  revert x. induction n as [n IH|n IH|]; intros x; simpl.
  - rewrite !IH. rewrite <- Pos.iter_swap. rewrite <- Pos.iter_swap. reflexivity.
  - rewrite !IH. reflexivity.
  - reflexivity.
Qed.

Lemma shr_1_m (m : Z) (r s : bool) :
  0 <= m -> shr_m (shr_1 (Build_shr_record m r s)) = m / 2.
Proof.
  intros Hm. destruct m as [|[p|p|]|p]; simpl; try reflexivity; try lia.
  - rewrite Pos2Z.inj_xI. apply Z.div_unique with 1; lia.
  - rewrite Pos2Z.inj_xO. apply Z.div_unique with 0; lia.
Qed.

Lemma shr_iter_m (n : positive) (m : Z) (r s : bool) :
  0 <= m ->
  shr_m (Pos.iter shr_1 (Build_shr_record m r s) n) = m / 2 ^ Z.pos n.
Proof.
  intros Hm. induction n as [|n IH] using Pos.peano_ind.
  - change (Pos.iter shr_1 (Build_shr_record m r s) 1)
      with (shr_1 (Build_shr_record m r s)).
    rewrite shr_1_m by assumption. reflexivity.
  - rewrite Pos.iter_succ. rewrite Pos2Z.inj_succ, Z.pow_succ_r by lia.
    destruct (Pos.iter shr_1 (Build_shr_record m r s) n) as [m' r' s'] eqn:E.
    simpl in IH. rewrite shr_1_m.
    + rewrite IH. rewrite Z.div_div by lia. f_equal. lia.
    + rewrite IH. apply Z.div_pos; lia.
Qed.

Lemma shr_iter_exact (n : positive) (k : Z) :
  0 <= k ->
  Pos.iter shr_1 (Build_shr_record (k * 2 ^ Z.pos n) false false) n
  = Build_shr_record k false false.
Proof.
  revert k. induction n as [|n IH] using Pos.peano_ind; intros k Hk.
  - change (Pos.iter shr_1 (Build_shr_record (k * 2 ^ 1) false false) 1)
      with (shr_1 (Build_shr_record (k * 2 ^ 1) false false)).
    change (2 ^ 1) with 2.
    destruct k as [|p|p]; [reflexivity| |lia].
    replace (Z.pos p * 2) with (Z.pos p~0) by lia. reflexivity.
  - rewrite Pos.iter_succ. rewrite Pos2Z.inj_succ, Z.pow_succ_r by lia.
    replace (k * (2 * 2 ^ Z.pos n)) with ((2 * k) * 2 ^ Z.pos n) by lia.
    rewrite IH by lia.
    destruct k as [|p|p]; [reflexivity| |lia]. reflexivity.
Qed.

Lemma fexp32 (k : Z) : fexp F32.prec F32.emax k = Z.max (k - 24) (-149).
Proof. reflexivity. Qed.

Lemma shr_record_of_loc_m (m : Z) (l : location) :
  exists r s, shr_record_of_loc m l = Build_shr_record m r s
              /\ (l = loc_Exact -> r = false /\ s = false).
Proof.
  destruct l as [|[]]; simpl; eexists _, _; (split; [reflexivity|]);
    intros H; first [discriminate H | split; reflexivity].
Qed.

Lemma loc_of_shr_record_of_loc (m : Z) (l : location) :
  loc_of_shr_record (shr_record_of_loc m l) = l.
Proof. destruct l as [|[]]; reflexivity. Qed.

(** The invariant of rounding below one: a mantissa of at most [2 ^ (- e)],
    strictly less when something was already dropped. *)
Lemma shr_fexp_below_one (m e : Z) (l : location) :
  0 <= m <= 2 ^ (- e) -> e <= -23 ->
  (l <> loc_Exact -> m < 2 ^ (- e)) ->
  exists mrs' e',
    shr_fexp F32.prec F32.emax m e l = (mrs', e')
    /\ 0 <= shr_m mrs' <= 2 ^ (- e') /\ e' <= -23
    /\ (loc_of_shr_record mrs' <> loc_Exact -> shr_m mrs' < 2 ^ (- e')).
Proof.
  intros Hm He Hl.
  pose proof (Zdigits2_le m e Hm ltac:(lia)) as Hd.
  unfold shr_fexp. rewrite fexp32.
  destruct (shr_record_of_loc_m m l) as (r & s & Erec & Hexact).
  pose proof (loc_of_shr_record_of_loc m l) as Hloc.
  unfold shr.
  destruct (Z.max (Zdigits2 m + e - 24) (-149) - e) as [|p|p] eqn:En.
  - eexists _, _. split; [reflexivity|]. rewrite Hloc, Erec. simpl. auto.
  - rewrite iter_pos_eq. eexists _, _. split; [reflexivity|].
    assert (He' : e + Z.pos p <= -23) by lia.
    assert (Hpow : 2 ^ (- e) = 2 ^ (- (e + Z.pos p)) * 2 ^ Z.pos p).
    { rewrite <- Z.pow_add_r by lia. f_equal. lia. }
    assert (Hpos : 0 < 2 ^ Z.pos p) by (apply Z.pow_pos_nonneg; lia).
    rewrite Erec.
    assert (Em : shr_m (Pos.iter shr_1 (Build_shr_record m r s) p) = m / 2 ^ Z.pos p)
      by (apply shr_iter_m; lia).
    rewrite Em.
    assert (Hup : m / 2 ^ Z.pos p <= 2 ^ (- (e + Z.pos p))).
    { apply Z.div_le_upper_bound; [assumption|]. rewrite Z.mul_comm. lia. }
    split; [split; [apply Z.div_pos; lia | exact Hup]|].
    split; [exact He'|].
    intros Hinexact.
    destruct (Z_lt_le_dec (m / 2 ^ Z.pos p) (2 ^ (- (e + Z.pos p)))) as [Hlt|Hge];
      [exact Hlt|].
    exfalso. apply Hinexact.
    assert (Hmul : 2 ^ Z.pos p * (m / 2 ^ Z.pos p) <= m)
      by (apply Z.mul_div_le; assumption).
    assert (Hmeq : m = 2 ^ (- (e + Z.pos p)) * 2 ^ Z.pos p) by nia.
    assert (Hle : l = loc_Exact).
    { destruct l as [|c]; [reflexivity|]. exfalso.
      assert (m < 2 ^ (- e)) by (apply Hl; discriminate). lia. }
    destruct (Hexact Hle) as [-> ->].
    rewrite Hmeq. rewrite shr_iter_exact by lia. reflexivity.
  - eexists _, _. split; [reflexivity|]. rewrite Hloc, Erec. simpl. auto.
Qed.

Lemma round_nearest_even_below_one (m e : Z) (l : location) :
  0 <= m <= 2 ^ (- e) -> (l <> loc_Exact -> m < 2 ^ (- e)) ->
  0 <= round_nearest_even m l <= 2 ^ (- e).
Proof.
  intros Hm Hl. destruct l as [|[]]; simpl; try lia.
  - assert (m < 2 ^ (- e)) by (apply Hl; discriminate).
    destruct (Z.even m); lia.
  - assert (m < 2 ^ (- e)) by (apply Hl; discriminate). lia.
Qed.

(** Rounding a value of at most one gives a float between zero and one. *)
Lemma binary_round_aux_unit (m e : Z) (l : location) :
  0 <= m <= 2 ^ (- e) -> e <= -23 ->
  (l <> loc_Exact -> m < 2 ^ (- e)) ->
  SFleb F32.zero (binary_round_aux F32.prec F32.emax false m e l) = true
  /\ SFleb (binary_round_aux F32.prec F32.emax false m e l) F32.one = true.
Proof.
  intros Hm He Hl. unfold binary_round_aux.
  destruct (shr_fexp_below_one m e l Hm He Hl) as (mrs1 & e1 & E1 & Hm1 & He1 & Hl1).
  rewrite E1.
  pose proof (round_nearest_even_below_one _ _ _ Hm1 Hl1) as Hm2.
  destruct (shr_fexp_below_one (round_nearest_even (shr_m mrs1) (loc_of_shr_record mrs1))
              e1 loc_Exact Hm2 He1 ltac:(congruence))
    as (mrs3 & e3 & E3 & Hm3 & He3 & _).
  rewrite E3.
  destruct (shr_m mrs3) as [|p|p] eqn:Em3; [split; reflexivity| |lia].
  replace (e3 <=? F32.emax - F32.prec) with true
    by (symmetry; apply Z.leb_le; unfold F32.emax, F32.prec; lia).
  split; [reflexivity|].
  change F32.one with (S754_finite false 8388608 (-23)).
  unfold SFleb, SFcompare.
  destruct (Z.compare_spec e3 (-23)) as [Heq|Hlt|Hgt]; [|reflexivity|lia].
  subst e3. change (2 ^ (- -23)) with 8388608 in Hm3.
  rewrite Pos.compare_cont_spec.
  destruct (Pos.compare_spec p 8388608) as [Hp|Hp|Hp]; try reflexivity. lia.
Qed.

Lemma SFdiv_core_binary_eq (m1 e1 m2 e2 : Z) :
  SFdiv_core_binary F32.prec F32.emax m1 e1 m2 e2
  = (let e' := Z.min (fexp F32.prec F32.emax
                        (Zdigits2 m1 + e1 - (Zdigits2 m2 + e2))) (e1 - e2) in
     let s := e1 - e2 - e' in
     let m' := match s with
               | Z.pos _ => Z.shiftl m1 s
               | 0 => m1
               | Z.neg _ => 0
               end in
     let '(q, r) := Z.div_eucl m' m2 in
     (q, e', new_location m2 r)).
Proof. reflexivity. Qed.

(** The quotient of two positive floats, the first at most the second, is
    between zero and one. *)
Lemma div_in_unit_interval (mb : positive) (eb : Z) (mc : positive) (ec : Z) :
  eb <= ec ->
  Z.pos mb <= Z.pos mc * 2 ^ (ec - eb) ->
  SFleb F32.zero (S754_finite false mb eb / S754_finite false mc ec)%f32 = true
  /\ SFleb (S754_finite false mb eb / S754_finite false mc ec)%f32 F32.one = true.
Proof.
  intros Hexp Hle. unfold F32.div, SFdiv. rewrite SFdiv_core_binary_eq.
  cbv zeta. rewrite fexp32. simpl Zdigits2. simpl xorb.
  pose proof (digits2_pos_bounds mb) as [Hb _].
  pose proof (digits2_pos_bounds mc) as [_ Hc].
  set (d1 := Z.pos (digits2_pos mb)) in *. set (d2 := Z.pos (digits2_pos mc)) in *.
  assert (Hk : d1 + eb - (d2 + ec) <= 0).
  { destruct (Z_lt_le_dec 0 (d1 + eb - (d2 + ec))) as [Hlt|]; [|lia]. exfalso.
    assert (2 ^ (d2 + (ec - eb)) <= 2 ^ (d1 - 1)) by (apply Z.pow_le_mono_r; lia).
    assert (0 < 2 ^ (ec - eb)) by (apply Z.pow_pos_nonneg; lia).
    rewrite Z.pow_add_r in * by (subst d2; lia). nia. }
  set (e' := Z.min (Z.max (d1 + eb - (d2 + ec) - 24) (-149)) (eb - ec)).
  assert (He' : e' <= -24) by (subst e'; lia).
  assert (Hs : 0 <= eb - ec - e') by (subst e'; lia).
  assert (Em' : match eb - ec - e' with
                | Z.pos _ => Z.shiftl (Z.pos mb) (eb - ec - e')
                | 0 => Z.pos mb
                | Z.neg _ => 0
                end = Z.pos mb * 2 ^ (eb - ec - e')).
  { destruct (eb - ec - e') as [|p|p] eqn:Es; [simpl; lia| |lia].
    rewrite Z.shiftl_mul_pow2 by lia. reflexivity. }
  rewrite Em'.
  pose proof (Z.div_eucl_eq (Z.pos mb * 2 ^ (eb - ec - e')) (Z.pos mc) ltac:(lia)) as Heq.
  pose proof (Z.mod_pos_bound (Z.pos mb * 2 ^ (eb - ec - e')) (Z.pos mc) ltac:(lia)) as Hr.
  unfold Z.modulo in Hr.
  destruct (Z.div_eucl (Z.pos mb * 2 ^ (eb - ec - e')) (Z.pos mc)) as [q r].
  assert (Hpow : 2 ^ (ec - eb) * 2 ^ (eb - ec - e') = 2 ^ (- e')).
  { rewrite <- Z.pow_add_r by lia. f_equal. lia. }
  assert (Hps : 0 < 2 ^ (eb - ec - e')) by (apply Z.pow_pos_nonneg; lia).
  assert (Hbound : Z.pos mc * q + r <= Z.pos mc * 2 ^ (- e')).
  { rewrite <- Heq, <- Hpow. nia. }
  assert (Hq0 : 0 <= q) by nia.
  apply binary_round_aux_unit.
  - split; [exact Hq0 | nia].
  - lia.
  - intros Hloc.
    assert (Hrne : r <> 0).
    { intros ->. apply Hloc. unfold new_location, new_location_even, new_location_odd.
      destruct (Z.even (Z.pos mc)); reflexivity. }
    nia.
Qed.

Lemma pos_iter_xO (m d : positive) :
  Z.pos (Pos.iter xO m d) = Z.pos m * 2 ^ Z.pos d.
Proof.
  induction d as [|d IH] using Pos.peano_ind.
  - change (Pos.iter xO m 1) with (m~0)%positive. change (2 ^ 1) with 2. lia.
  - rewrite Pos.iter_succ, Pos2Z.inj_xO, IH, Pos2Z.inj_succ, Z.pow_succ_r by lia. lia.
Qed.

(** A mantissa of 24 digits times a power of two rounds to itself. *)
Lemma binary_round_aux_exact (s : bool) (M m' : positive) (e k : Z) :
  0 <= k -> Z.pos M = Z.pos m' * 2 ^ k ->
  Z.pos (digits2_pos m') = 24 -> -149 <= e + k <= 104 ->
  binary_round_aux F32.prec F32.emax s (Z.pos M) e loc_Exact
  = S754_finite s m' (e + k).
Proof.
  intros Hk HM Hd He.
  assert (HdM : Z.pos (digits2_pos M) = 24 + k).
  { apply digits2_pos_unique. pose proof (digits2_pos_bounds m') as Hb.
    rewrite Hd in Hb. rewrite HM.
    replace (24 + k - 1) with (23 + k) by lia.
    rewrite !Z.pow_add_r by lia.
    assert (0 < 2 ^ k) by (apply Z.pow_pos_nonneg; lia).
    change (24 - 1) with 23 in Hb. nia. }
  assert (Hsecond : shr_fexp F32.prec F32.emax (Z.pos m') (e + k) loc_Exact
                    = (Build_shr_record (Z.pos m') false false, e + k)).
  { unfold shr_fexp. rewrite fexp32. simpl Zdigits2. rewrite Hd.
    replace (Z.max (24 + (e + k) - 24) (-149) - (e + k)) with 0 by lia.
    reflexivity. }
  unfold binary_round_aux.
  assert (Hfirst : shr_fexp F32.prec F32.emax (Z.pos M) e loc_Exact
                   = (Build_shr_record (Z.pos m') false false, e + k)).
  { unfold shr_fexp. rewrite fexp32. simpl Zdigits2. rewrite HdM.
    replace (Z.max (24 + k + e - 24) (-149) - e) with k by lia.
    unfold shr. destruct k as [|p|p]; [| |lia].
    - simpl. rewrite Z.add_0_r. f_equal. f_equal. simpl in HM. lia.
    - rewrite iter_pos_eq. simpl shr_record_of_loc. rewrite HM.
      rewrite shr_iter_exact by lia. reflexivity. }
  rewrite Hfirst. simpl shr_m. simpl loc_of_shr_record. simpl round_nearest_even.
  rewrite Hsecond. simpl shr_m.
  replace (e + k <=? F32.emax - F32.prec) with true
    by (symmetry; apply Z.leb_le; unfold F32.emax, F32.prec; lia).
  reflexivity.
Qed.

(** A positive integer below [2 ^ 24] converts exactly. *)
Lemma of_int_small (n : Z) :
  0 < n < 2 ^ 24 ->
  exists m,
    F32.of_int n = S754_finite false m (Zdigits2 n - 24)
    /\ Z.pos m = n * 2 ^ (24 - Zdigits2 n).
Proof.
  intros Hn. destruct n as [|p|p]; try lia.
  pose proof (digits2_pos_bounds p) as Hb. simpl Zdigits2.
  set (d := Z.pos (digits2_pos p)) in *.
  assert (Hd : 1 <= d <= 24).
  { split; [subst d; lia|].
    destruct (Z_lt_le_dec 24 d) as [Hlt|]; [|lia]. exfalso.
    assert (2 ^ 24 <= 2 ^ (d - 1)) by (apply Z.pow_le_mono_r; lia). lia. }
  unfold F32.of_int, binary_normalize, binary_round. rewrite fexp32.
  fold d. replace (Z.max (d + 0 - 24) (-149)) with (d - 24) by lia.
  assert (Hal : exists mz, shl_align p 0 (d - 24) = (mz, d - 24)
                           /\ Z.pos mz = Z.pos p * 2 ^ (24 - d)).
  { unfold shl_align. destruct (d - 24 - 0) as [|q|q] eqn:Eq; [|lia|].
    - exists p. split; [f_equal; lia|]. replace (24 - d) with 0 by lia. simpl; lia.
    - eexists. split; [reflexivity|]. rewrite pos_iter_xO. f_equal. f_equal. lia. }
  destruct Hal as (mz & -> & Hmz).
  exists mz. split; [|exact Hmz].
  replace (d - 24) with (d - 24 + 0) at 2 by lia.
  apply binary_round_aux_exact; try lia.
  apply digits2_pos_unique. rewrite Hmz. change (24 - 1) with 23.
  assert (0 < 2 ^ (24 - d)) by (apply Z.pow_pos_nonneg; lia).
  assert (E1 : 2 ^ 23 = 2 ^ (d - 1) * 2 ^ (24 - d))
    by (rewrite <- Z.pow_add_r by lia; f_equal; lia).
  assert (E2 : 2 ^ 24 = 2 ^ d * 2 ^ (24 - d))
    by (rewrite <- Z.pow_add_r by lia; f_equal; lia).
  rewrite E1, E2. nia.
Qed.

(** A non-negative integer below [2 ^ 23] plus one half is computed
    exactly. *)
Lemma add_half_small (x : Z) :
  0 <= x < 2 ^ 23 ->
  exists m,
    (F32.of_int x + F32.lit 5 10)%f32 = S754_finite false m (Zdigits2 (2 * x + 1) - 25)
    /\ Z.pos m = (2 * x + 1) * 2 ^ (24 - Zdigits2 (2 * x + 1)).
Proof.
  intros Hx.
  change (F32.lit 5 10) with (S754_finite false 8388608 (-24)).
  destruct (Z.eq_dec x 0) as [->|Hx0].
  { exists 8388608%positive. split; reflexivity. }
  destruct (of_int_small x ltac:(lia)) as (mx & -> & Hmx).
  destruct x as [|px|px]; try lia.
  remember (2 * Z.pos px + 1) as y eqn:Ey.
  destruct y as [|py|py]; try lia.
  simpl Zdigits2 in *.
  pose proof (digits2_pos_bounds px) as Hbx.
  pose proof (digits2_pos_bounds py) as Hby.
  set (dx := Z.pos (digits2_pos px)) in *.
  set (dy := Z.pos (digits2_pos py)) in *.
  assert (Hdx : 1 <= dx <= 23).
  { split; [subst dx; lia|].
    destruct (Z_lt_le_dec 23 dx) as [Hlt|]; [|lia]. exfalso.
    assert (2 ^ 23 <= 2 ^ (dx - 1)) by (apply Z.pow_le_mono_r; lia). lia. }
  assert (Hdy : dy = dx + 1).
  { subst dy. apply digits2_pos_unique. rewrite Ey.
    replace (dx + 1 - 1) with (Z.succ (dx - 1)) by lia.
    replace (dx + 1) with (Z.succ dx) by lia.
    rewrite !Z.pow_succ_r by lia. lia. }
  unfold F32.add, SFadd.
  replace (Z.min (dx - 24) (-24)) with (-24) by lia.
  assert (Hal : fst (shl_align mx (dx - 24) (-24)) = Pos.iter xO mx (Z.to_pos dx)).
  { unfold shl_align. destruct (-24 - (dx - 24)) as [|q|q] eqn:Eq; try lia.
    simpl. f_equal. lia. }
  rewrite Hal. unfold cond_Zopp.
  change (fst (shl_align 8388608 (-24) (-24))) with 8388608%positive.
  rewrite pos_iter_xO, Hmx, Z2Pos.id by lia.
  assert (Hsum : Z.pos px * 2 ^ (24 - dx) * 2 ^ dx + 8388608 = Z.pos py * 2 ^ 23).
  { rewrite <- Z.mul_assoc, <- Z.pow_add_r by lia.
    replace (24 - dx + dx) with 24 by lia.
    change (2 ^ 24) with 16777216. change (2 ^ 23) with 8388608. lia. }
  rewrite Hsum.
  assert (Hpos : exists M, Z.pos py * 2 ^ 23 = Z.pos M) by (eexists; reflexivity).
  destruct Hpos as (M & HM). rewrite HM.
  unfold binary_normalize, binary_round. rewrite fexp32.
  assert (HdM : Z.pos (digits2_pos M) = dy + 23).
  { apply digits2_pos_unique. rewrite <- HM.
    replace (dy + 23 - 1) with (dy - 1 + 23) by lia.
    rewrite !Z.pow_add_r by lia.
    change (2 ^ 23) with 8388608. lia. }
  rewrite HdM.
  replace (Z.max (dy + 23 + -24 - 24) (-149)) with (dy - 25) by lia.
  assert (Hal2 : shl_align M (-24) (dy - 25) = (M, -24)).
  { unfold shl_align. destruct (dy - 25 - -24) as [|q|q] eqn:Eq; try lia; reflexivity. }
  rewrite Hal2.
  assert (Hm' : exists m', Z.pos m' = Z.pos py * 2 ^ (24 - dy)).
  { assert (0 < Z.pos py * 2 ^ (24 - dy)).
    { apply Z.mul_pos_pos; [lia|]. apply Z.pow_pos_nonneg; lia. }
    exists (Z.to_pos (Z.pos py * 2 ^ (24 - dy))). rewrite Z2Pos.id by lia. reflexivity. }
  destruct Hm' as (m' & Hm').
  exists m'. split; [|exact Hm'].
  replace (dy - 25) with (-24 + (dy - 1)) by lia.
  apply binary_round_aux_exact; try lia.
  - rewrite <- HM, Hm'. rewrite <- Z.mul_assoc, <- Z.pow_add_r by lia.
    f_equal. f_equal. lia.
  - apply digits2_pos_unique. rewrite Hm'. change (24 - 1) with 23.
    assert (0 < 2 ^ (24 - dy)) by (apply Z.pow_pos_nonneg; lia).
    assert (E1 : 2 ^ 23 = 2 ^ (dy - 1) * 2 ^ (24 - dy))
      by (rewrite <- Z.pow_add_r by lia; f_equal; lia).
    assert (E2 : 2 ^ 24 = 2 ^ dy * 2 ^ (24 - dy))
      by (rewrite <- Z.pow_add_r by lia; f_equal; lia).
    rewrite E1, E2. nia.
Qed.

(** The normalised pointer coordinate of a pointer inside the image is
    between zero and one. *)
Lemma pointer_ratio_in_unit_interval (x n : Z) :
  0 <= x < n -> n <= 2 ^ 23 ->
  SFleb F32.zero ((F32.of_int x + F32.lit 5 10) / F32.of_int n)%f32 = true
  /\ SFleb ((F32.of_int x + F32.lit 5 10) / F32.of_int n)%f32 F32.one = true.
Proof.
  intros Hx Hn.
  destruct (add_half_small x ltac:(lia)) as (mb & -> & Hmb).
  destruct (of_int_small n ltac:(change (2 ^ 24) with 16777216; change (2 ^ 23) with 8388608 in Hn; lia))
    as (mc & -> & Hmc).
  destruct n as [|pn|pn]; try lia.
  remember (2 * x + 1) as y eqn:Ey.
  destruct y as [|py|py]; try lia.
  simpl Zdigits2 in *.
  pose proof (digits2_pos_bounds pn) as Hbn.
  pose proof (digits2_pos_bounds py) as Hby.
  set (dn := Z.pos (digits2_pos pn)) in *.
  set (dy := Z.pos (digits2_pos py)) in *.
  assert (Hdn : 1 <= dn <= 24).
  { split; [subst dn; lia|].
    destruct (Z_lt_le_dec 24 dn) as [Hlt|]; [|lia]. exfalso.
    assert (2 ^ 24 <= 2 ^ (dn - 1)) by (apply Z.pow_le_mono_r; lia).
    change (2 ^ 24) with 16777216 in *. change (2 ^ 23) with 8388608 in *. lia. }
  assert (Hdy : 1 <= dy <= dn + 1).
  { split; [subst dy; lia|].
    destruct (Z_lt_le_dec (dn + 1) dy) as [Hlt|]; [|lia]. exfalso.
    assert (2 ^ (dn + 1) <= 2 ^ (dy - 1)) by (apply Z.pow_le_mono_r; lia).
    rewrite Z.pow_add_r in * by lia. change (2 ^ 1) with 2 in *. lia. }
  assert (Hdy' : dy <= 24).
  { destruct (Z_lt_le_dec 24 dy) as [Hlt|]; [|lia]. exfalso.
    assert (2 ^ 24 <= 2 ^ (dy - 1)) by (apply Z.pow_le_mono_r; lia).
    change (2 ^ 24) with 16777216 in *. change (2 ^ 23) with 8388608 in *. lia. }
  apply div_in_unit_interval; [lia|].
  rewrite Hmb, Hmc.
  replace (dn - 24 - (dy - 25)) with (dn + 1 - dy) by lia.
  rewrite <- Z.mul_assoc, <- Z.pow_add_r by lia.
  replace (24 - dn + (dn + 1 - dy)) with (1 + (24 - dy)) by lia.
  rewrite Z.pow_add_r by lia. change (2 ^ 1) with 2.
  assert (0 < 2 ^ (24 - dy)) by (apply Z.pow_pos_nonneg; lia).
  nia.
Qed.

(** *** Mouse scope *)

Lemma constructor_table_has_no_mouse_name :
  constructor_attr_getters !! RS.Hashes.s = None
  /\ constructor_attr_getters !! RS.Hashes.t = None.
Proof. split; vm_compute; reflexivity. Qed.

(** An answer given exactly when a coordinate is not negative. *)
Lemma answer_guarded_by_sign (x : Z) (val out : buffer) :
  let r := if 0 <=? x then (true, out) else (false, val) in
  (fst r = true <-> 0 <= x)
  /\ (0 <= x -> r = (true, out))
  /\ (x = -1 -> r = (false, val)).
Proof.
  simpl. destruct (Z.leb_spec 0 x) as [Hx|Hx]; simpl.
  - split; [tauto|]. split; [reflexivity|]. lia.
  - split; [split; [discriminate | lia]|]. split; [lia | reflexivity].
Qed.




(** *** Derivative blocks *)

(** C6, as stated, fails: with derivatives requested and the type matching,
    "camera:resolution" stores its two integers and "camera:projection" its
    name, and neither stores anything after the value. *)
Lemma resolution_and_projection_store_no_derivatives :
  get_attribute example_version OSLToyRenderer_new
    (m_shaderglobals_template OSLToyRenderer_new) true "" TypeIntArray2
    "camera:resolution" ∅
  = (true, {[0%nat := VInt 256; 1%nat := VInt 256]})
  /\ ({[0%nat := VInt 256; 1%nat := VInt 256]} : buffer) !! 2%nat = None
  /\ get_attribute example_version OSLToyRenderer_new
       (m_shaderglobals_template OSLToyRenderer_new) true "" TypeString
       "camera:projection" ∅
     = (true, {[0%nat := VString "perspective"]})
  /\ ({[0%nat := VString "perspective"]} : buffer) !! 1%nat = None.
Proof. repeat split; vm_compute; reflexivity. Qed.


(** Lookups after a run of stores and after [memset_zero]. *)
Lemma lookup_store_floats_lt (vs : list spec_float) (val : buffer) (i j : nat) :
  (j < i)%nat -> store_floats val i vs !! j = val !! j.
Proof.
  revert val i. induction vs as [|v vs IH]; intros val i Hj; simpl; [reflexivity|].
  rewrite IH by lia. unfold store. apply lookup_insert_ne. lia.
Qed.

Lemma lookup_store_floats_in (vs : list spec_float) (val : buffer) (i k : nat) v :
  vs !! k = Some v -> store_floats val i vs !! (i + k)%nat = Some (VFloat v).
Proof.
  revert val i k. induction vs as [|v' vs IH]; intros val i k Hk; [discriminate Hk|].
  destruct k as [|k]; simpl in *.
  - injection Hk as ->. rewrite lookup_store_floats_lt by lia.
    rewrite Nat.add_0_r. unfold store. apply lookup_insert_eq.
  - replace (i + S k)%nat with (S i + k)%nat by lia. by apply IH.
Qed.

Lemma lookup_store_floats_ge (vs : list spec_float) (val : buffer) (i j : nat) :
  (i + length vs <= j)%nat -> store_floats val i vs !! j = val !! j.
Proof.
  revert val i. induction vs as [|v vs IH]; intros val i Hj; simpl in *; [reflexivity|].
  rewrite IH by lia. unfold store. apply lookup_insert_ne. lia.
Qed.

Lemma lookup_memset_zero (val : buffer) (off len i : nat) :
  memset_zero val off len !! i
  = if decide (off / 4 <= i < off / 4 + len / 4)%nat
    then Some (VFloat F32.zero) else val !! i.
Proof.
  unfold memset_zero. generalize (off / 4)%nat (len / 4)%nat. intros a n.
  revert a. induction n as [|n IH]; intros a; simpl.
  - case_decide; [lia | reflexivity].
  - unfold store at 1. destruct (decide (a = i)) as [->|Hne].
    + rewrite lookup_insert_eq. case_decide; [reflexivity | lia].
    + rewrite lookup_insert_ne by assumption. rewrite IH.
      repeat case_decide; first [reflexivity | lia].
Qed.

(** The layout the float getters produce when they are asked for
    derivatives. *)
Lemma value_then_zero_blocks (val : buffer) (vs : list spec_float) :
  value_and_zero_derivatives val
    (memset_zero (store_floats val 0 vs) (4 * length vs) (2 * (4 * length vs))) vs.
Proof.
  unfold value_and_zero_derivatives.
  assert (Hoff : (4 * length vs / 4 = length vs)%nat)
    by (rewrite Nat.mul_comm; apply Nat.div_mul; lia).
  assert (Hlen : (2 * (4 * length vs) / 4 = 2 * length vs)%nat)
    by (replace (2 * (4 * length vs))%nat with ((2 * length vs) * 4)%nat by lia;
        apply Nat.div_mul; lia).
  split; [|split].
  - intros i v Hv. rewrite lookup_memset_zero, Hoff, Hlen.
    pose proof (lookup_lt_Some _ _ _ Hv). case_decide; [lia|].
    by apply (lookup_store_floats_in vs val 0 i).
  - intros i Hi. rewrite lookup_memset_zero, Hoff, Hlen.
    case_decide; [reflexivity | lia].
  - intros i Hi. rewrite lookup_memset_zero, Hoff, Hlen.
    case_decide; [lia|]. apply lookup_store_floats_ge. lia.
Qed.

(** C6, amended: each camera getter whose value is made of floats, asked
    for its own type with derivatives, succeeds and stores the value followed
    by two blocks of zeros as long as the value, the type taking four bytes
    for each float of the value; the resolution and the projection getters,
    asked for their own type with derivatives, store the value only. *)
Theorem float_camera_attributes_have_zero_derivatives :
  forall OSL_VERSION this sg object name val getter type vs,
    float_camera_attribute getter this = Some (type, vs) ->
    (exists out,
        call_getter OSL_VERSION getter this sg true object type name val = (true, out)
        /\ value_and_zero_derivatives val out vs
        /\ TypeDesc.size type = (4 * length vs)%nat)
    /\ call_getter OSL_VERSION get_camera_resolution_ptr this sg true object
         TypeIntArray2 name val
       = (true, store (store val 0 (VInt (m_xres this))) 1 (VInt (m_yres this)))
    /\ call_getter OSL_VERSION get_camera_projection_ptr this sg true object
         TypeString name val
       = (true, store val 0 (VString (m_projection this))).
Proof.
  intros V this sg object name val getter type vs Hfloat.
  split; [|split; reflexivity].
  exists (memset_zero (store_floats val 0 vs) (4 * length vs) (2 * (4 * length vs))).
  split; [|split; [apply value_then_zero_blocks|]].
  - destruct getter; simpl in Hfloat; try discriminate Hfloat.
    + unfold call_getter, get_camera_pixelaspect. injection Hfloat as <- <-. reflexivity.
    + unfold call_getter, get_camera_screen_window.
      destruct (m_screen_window this) as [[[w0 w1] w2] w3].
      injection Hfloat as <- <-. reflexivity.
    + unfold call_getter, get_camera_fov. injection Hfloat as <- <-. reflexivity.
    + unfold call_getter, get_camera_clip. injection Hfloat as <- <-. reflexivity.
    + unfold call_getter, get_camera_clip_near. injection Hfloat as <- <-. reflexivity.
    + unfold call_getter, get_camera_clip_far. injection Hfloat as <- <-. reflexivity.
    + unfold call_getter, get_camera_shutter. injection Hfloat as <- <-. reflexivity.
    + unfold call_getter, get_camera_shutter_open. injection Hfloat as <- <-. reflexivity.
    + unfold call_getter, get_camera_shutter_close. injection Hfloat as <- <-. reflexivity.
  - destruct getter; simpl in Hfloat; try discriminate Hfloat;
      try destruct (m_screen_window this) as [[[w0 w1] w2] w3];
      injection Hfloat as <- <-; reflexivity.
Qed.

Lemma float_camera_attributes_have_zero_derivatives_witness :
  float_camera_attribute get_camera_clip_ptr OSLToyRenderer_new
  = Some (TypeFloatArray2, [F32.lit 1 10; F32.lit 1000 1])
  /\ exists out,
      call_getter example_version get_camera_clip_ptr OSLToyRenderer_new
        (m_shaderglobals_template OSLToyRenderer_new) true "" TypeFloatArray2
        "camera:clip" ∅ = (true, out)
      /\ value_and_zero_derivatives ∅ out [F32.lit 1 10; F32.lit 1000 1]
      /\ TypeDesc.size TypeFloatArray2 = 8%nat.
Proof.
  assert (H : float_camera_attribute get_camera_clip_ptr OSLToyRenderer_new
              = Some (TypeFloatArray2, [F32.lit 1 10; F32.lit 1000 1]))
    by reflexivity.
  split; [exact H|].
  exact (proj1 (float_camera_attributes_have_zero_derivatives
                  example_version OSLToyRenderer_new
                  (m_shaderglobals_template OSLToyRenderer_new) "" "camera:clip" ∅
                  get_camera_clip_ptr TypeFloatArray2
                  [F32.lit 1 10; F32.lit 1000 1] H)).
Defined.

(** ** Further properties *)

(** *** Getters *)

(** X1: a getter succeeds exactly when the requested type is its own type,
    array length and semantics included; nothing is converted. *)
Theorem getter_succeeds_iff_type_matches :
  forall OSL_VERSION getter this sg derivs object type name val,
    fst (call_getter OSL_VERSION getter this sg derivs object type name val) = true
    <-> type = getter_type getter.
Proof.
  intros V getter this sg derivs object type name val.
  destruct getter; simpl;
    [ unfold get_osl_version | unfold get_camera_resolution
    | unfold get_camera_projection | unfold get_camera_pixelaspect
    | unfold get_camera_screen_window | unfold get_camera_fov
    | unfold get_camera_clip | unfold get_camera_clip_near
    | unfold get_camera_clip_far | unfold get_camera_shutter
    | unfold get_camera_shutter_open | unfold get_camera_shutter_close ];
    try destruct (m_screen_window this) as [[[w0 w1] w2] w3];
    unfold TypeDesc.eqb; case_bool_decide; simpl;
    (split; [intros H'; first [assumption | discriminate H'] | intros H'; first [reflexivity | contradiction]]).
Qed.

(** X2: for a name the dispatch table lists, the answer does not depend on
    the scope, on the index or on the shader globals of the query. *)
Theorem listed_attribute_ignores_scope_index_and_globals :
  forall OSL_VERSION this sg sg' derivatives object object' type name index index'
         val getter,
    m_attr_getters this !! name = Some getter ->
    get_array_attribute OSL_VERSION this sg derivatives object type name index val
    = get_array_attribute OSL_VERSION this sg' derivatives object' type name index' val.
Proof.
  intros V this sg sg' d object object' type name index index' val getter Hlisted.
  unfold get_array_attribute. rewrite Hlisted. destruct getter; reflexivity.
Qed.

Lemma listed_attribute_ignores_scope_index_and_globals_witness :
  m_attr_getters OSLToyRenderer_new !! "camera:clip" = Some get_camera_clip_ptr
  /\ get_array_attribute example_version OSLToyRenderer_new
       (m_shaderglobals_template OSLToyRenderer_new) true "" TypeFloatArray2
       "camera:clip" (-1) ∅
     = get_array_attribute example_version OSLToyRenderer_new
         (default_shaderglobals 0 0) true "mouse" TypeFloatArray2
         "camera:clip" 3 ∅.
Proof.
  assert (H : m_attr_getters OSLToyRenderer_new !! "camera:clip"
              = Some get_camera_clip_ptr) by (vm_compute; reflexivity).
  split; [exact H|].
  exact (listed_attribute_ignores_scope_index_and_globals
           example_version OSLToyRenderer_new
           (m_shaderglobals_template OSLToyRenderer_new) (default_shaderglobals 0 0)
           true "" "mouse" TypeFloatArray2 "camera:clip" (-1) 3 ∅
           get_camera_clip_ptr H).
Defined.

(** The entries of the constructor's table. *)
Lemma constructor_table_entries :
  constructor_attr_getters !! "osl:version" = Some get_osl_version_ptr
  /\ constructor_attr_getters !! "camera:resolution" = Some get_camera_resolution_ptr
  /\ constructor_attr_getters !! "camera:projection" = Some get_camera_projection_ptr
  /\ constructor_attr_getters !! "camera:pixelaspect" = Some get_camera_pixelaspect_ptr
  /\ constructor_attr_getters !! "camera:screen_window"
     = Some get_camera_screen_window_ptr
  /\ constructor_attr_getters !! "camera:fov" = Some get_camera_fov_ptr
  /\ constructor_attr_getters !! "camera:clip" = Some get_camera_clip_ptr
  /\ constructor_attr_getters !! "camera:clip_near" = Some get_camera_clip_near_ptr
  /\ constructor_attr_getters !! "camera:clip_far" = Some get_camera_clip_far_ptr
  /\ constructor_attr_getters !! "camera:shutter" = Some get_camera_shutter_ptr
  /\ constructor_attr_getters !! "camera:shutter_open" = Some get_camera_shutter_open_ptr
  /\ constructor_attr_getters !! "camera:shutter_close"
     = Some get_camera_shutter_close_ptr.
Proof. vm_compute. repeat split. Qed.

(** X3: what [camera_params] is given is what the camera attributes
    report afterwards, on a renderer with the constructor's table and in
    any scope: the resolution, the projection, the field of view and the
    clipping planes as passed; the pixel aspect 1, the shutter [0, 1] and the
    screen window [-aspect, -1, aspect, 1] whatever was passed. *)
Theorem configured_camera_is_reported_by_attributes :
  forall OSL_VERSION this sg object val world_to_camera projection hfov hither yon
         xres yres,
    m_attr_getters this = constructor_attr_getters ->
    let st := camera_params this world_to_camera projection hfov hither yon xres yres in
    let aspect := (F32.of_int xres / F32.of_int yres * F32.one)%f32 in
    let ask type name := get_attribute OSL_VERSION st sg false object type name val in
    ask TypeIntArray2 "camera:resolution"
    = (true, store (store val 0 (VInt xres)) 1 (VInt yres))
    /\ ask TypeString "camera:projection" = (true, store val 0 (VString projection))
    /\ ask TypeFloat "camera:fov" = (true, store_floats val 0 [hfov])
    /\ ask TypeFloatArray2 "camera:clip" = (true, store_floats val 0 [hither; yon])
    /\ ask TypeFloat "camera:clip_near" = (true, store_floats val 0 [hither])
    /\ ask TypeFloat "camera:clip_far" = (true, store_floats val 0 [yon])
    /\ ask TypeFloat "camera:pixelaspect" = (true, store_floats val 0 [F32.one])
    /\ ask TypeFloatArray2 "camera:shutter"
       = (true, store_floats val 0 [F32.zero; F32.one])
    /\ ask TypeFloat "camera:shutter_open" = (true, store_floats val 0 [F32.zero])
    /\ ask TypeFloat "camera:shutter_close" = (true, store_floats val 0 [F32.one])
    /\ ask TypeFloatArray4 "camera:screen_window"
       = (true, store_floats val 0
                  [(- aspect)%f32; F32.neg F32.one; aspect; F32.one]).
Proof.
  intros V this sg object val w p f h y xres yres Htable st aspect ask.
  destruct constructor_table_entries
    as (_ & E1 & E2 & E3 & E4 & E5 & E6 & E7 & E8 & E9 & E10 & E11).
  subst ask. unfold get_attribute, get_array_attribute.
  change (m_attr_getters st) with (m_attr_getters this). rewrite Htable.
  rewrite E1, E2, E3, E4, E5, E6, E7, E8, E9, E10, E11.
  repeat split.
Qed.

Lemma configured_camera_is_reported_by_attributes_witness :
  m_attr_getters OSLToyRenderer_new = constructor_attr_getters
  /\ get_attribute example_version reconfigured_512
       (m_shaderglobals_template OSLToyRenderer_new) false "" TypeIntArray2
       "camera:resolution" ∅
     = (true, store (store ∅ 0 (VInt 512)) 1 (VInt 512))
  /\ get_attribute example_version reconfigured_512
       (m_shaderglobals_template OSLToyRenderer_new) false "" TypeFloatArray2
       "camera:clip" ∅
     = (true, store_floats ∅ 0 [F32.lit 1 10; F32.lit 1000 1]).
Proof.
  assert (H : m_attr_getters OSLToyRenderer_new = constructor_attr_getters)
    by reflexivity.
  pose proof (configured_camera_is_reported_by_attributes
                example_version OSLToyRenderer_new
                (m_shaderglobals_template OSLToyRenderer_new) "" ∅
                Imath.identity RS.Hashes.perspective
                (F32.lit 90 1) (F32.lit 1 10) (F32.lit 1000 1) 512 512 H)
    as (Hres & _ & _ & Hclip & _).
  split; [exact H|]. split; [exact Hres | exact Hclip].
Defined.

(** X4: without derivatives a float getter stores its value and nothing
    else: the elements after the value are as they were. *)
Theorem float_getter_without_derivatives_stores_value_only :
  forall OSL_VERSION this sg object name val getter type vs,
    float_camera_attribute getter this = Some (type, vs) ->
    call_getter OSL_VERSION getter this sg false object type name val
    = (true, store_floats val 0 vs)
    /\ forall i : nat,
        (length vs <= i)%nat ->
        snd (call_getter OSL_VERSION getter this sg false object type name val) !! i
        = val !! i.
Proof.
  intros V this sg object name val getter type vs Hfloat.
  assert (E : call_getter V getter this sg false object type name val
              = (true, store_floats val 0 vs)).
  { destruct getter; simpl in Hfloat; try discriminate Hfloat.
    - unfold call_getter, get_camera_pixelaspect. injection Hfloat as <- <-. reflexivity.
    - unfold call_getter, get_camera_screen_window.
      destruct (m_screen_window this) as [[[w0 w1] w2] w3].
      injection Hfloat as <- <-. reflexivity.
    - unfold call_getter, get_camera_fov. injection Hfloat as <- <-. reflexivity.
    - unfold call_getter, get_camera_clip. injection Hfloat as <- <-. reflexivity.
    - unfold call_getter, get_camera_clip_near. injection Hfloat as <- <-. reflexivity.
    - unfold call_getter, get_camera_clip_far. injection Hfloat as <- <-. reflexivity.
    - unfold call_getter, get_camera_shutter. injection Hfloat as <- <-. reflexivity.
    - unfold call_getter, get_camera_shutter_open. injection Hfloat as <- <-. reflexivity.
    - unfold call_getter, get_camera_shutter_close. injection Hfloat as <- <-. reflexivity. }
  split; [exact E|].
  intros i Hi. rewrite E. simpl. apply lookup_store_floats_ge. lia.
Qed.

Lemma float_getter_without_derivatives_stores_value_only_witness :
  float_camera_attribute get_camera_fov_ptr OSLToyRenderer_new
  = Some (TypeFloat, [F32.lit 90 1])
  /\ call_getter example_version get_camera_fov_ptr OSLToyRenderer_new
       (m_shaderglobals_template OSLToyRenderer_new) false "" TypeFloat "camera:fov"
       {[1%nat := VInt 7]}
     = (true, store_floats {[1%nat := VInt 7]} 0 [F32.lit 90 1]).
Proof.
  assert (H : float_camera_attribute get_camera_fov_ptr OSLToyRenderer_new
              = Some (TypeFloat, [F32.lit 90 1])) by reflexivity.
  split; [exact H|].
  exact (proj1 (float_getter_without_derivatives_stores_value_only
                  example_version OSLToyRenderer_new
                  (m_shaderglobals_template OSLToyRenderer_new) "" "camera:fov"
                  {[1%nat := VInt 7]} get_camera_fov_ptr TypeFloat [F32.lit 90 1] H)).
Defined.

(** *** Bounds of what a query stores *)

(** A scalar float type holds one element, whatever its semantics. *)
Lemma numelements_scalar_float (type : TypeDesc) :
  TypeDesc.eqb_base type TypeDesc.FLOAT = true -> numelements type = 1%nat.
Proof.
  unfold TypeDesc.eqb_base. destruct type as [b a v n]; simpl.
  repeat case_bool_decide; simpl; try discriminate. subst. reflexivity.
Qed.

Section Bounds.

Variable OSL_VERSION : Z.
Variables (this : OSLToyRenderer) (sg : ShaderGlobals).

Lemma call_getter_within_blocks getter derivs object type name val (i : nat) :
  (elements_allowed derivs type <= i)%nat ->
  snd (call_getter OSL_VERSION getter this sg derivs object type name val) !! i
  = val !! i.
Proof.
  intros Hi.
  destruct getter; simpl;
    [ unfold get_osl_version | unfold get_camera_resolution
    | unfold get_camera_projection | unfold get_camera_pixelaspect
    | unfold get_camera_screen_window | unfold get_camera_fov
    | unfold get_camera_clip | unfold get_camera_clip_near
    | unfold get_camera_clip_far | unfold get_camera_shutter
    | unfold get_camera_shutter_open | unfold get_camera_shutter_close ];
    try destruct (m_screen_window this) as [[[w0 w1] w2] w3];
    unfold TypeDesc.eqb; case_bool_decide; simpl; try reflexivity;
    subst type; destruct derivs; vm_compute in Hi; simpl;
    rewrite ?lookup_memset_zero; try (case_decide; [vm_compute in *; lia|]);
    unfold store; repeat (rewrite lookup_insert_ne by lia); reflexivity.
Qed.

Lemma get_userdata_within_blocks derivs name type val (i : nat) :
  (elements_allowed derivs type <= i)%nat ->
  snd (get_userdata this derivs name type sg val) !! i = val !! i.
Proof.
  intros Hi. unfold get_userdata, TypeDesc.eqb.
  repeat (case_bool_decide; simpl); try reflexivity;
    subst type; destruct derivs; vm_compute in Hi; simpl;
    unfold store; repeat (rewrite lookup_insert_ne by lia); reflexivity.
Qed.

Lemma get_array_attribute_unlisted_within_blocks derivs object type name index val
    (i : nat) :
  (elements_allowed derivs type <= i)%nat ->
  snd (get_array_attribute_unlisted this sg derivs object type name index val) !! i
  = val !! i.
Proof.
  intros Hi. unfold get_array_attribute_unlisted.
  assert (Hone : TypeDesc.eqb_base type TypeDesc.FLOAT = true -> (1 <= i)%nat).
  { intros Hf. apply numelements_scalar_float in Hf.
    unfold elements_allowed in Hi. rewrite Hf in Hi. destruct derivs; lia. }
  assert (Hone' : TypeDesc.eqb type TypeFloat = true -> (1 <= i)%nat).
  { unfold TypeDesc.eqb. case_bool_decide; [|discriminate]. subst type. intros _.
    destruct derivs; vm_compute in Hi; lia. }
  repeat match goal with
    | |- context [if ?c then _ else _] =>
        lazymatch c with
        | context [if _ then _ else _] => fail
        | _ => let E := fresh "E" in destruct c eqn:E
        end
    end; simpl;
    try reflexivity;
    try (apply get_userdata_within_blocks; assumption);
    repeat match goal with
      | H : _ && _ = true |- _ => apply andb_prop in H; destruct H
      end;
    unfold store; rewrite lookup_insert_ne; try reflexivity;
    first [ specialize (Hone ltac:(assumption)) | specialize (Hone' ltac:(assumption)) ];
    lia.
Qed.

End Bounds.

(** X5: a query stores nothing past the blocks it was asked for: the
    elements from [numelements type] on are untouched without derivatives,
    and those from [3 * numelements type] on with derivatives, whether the
    query succeeds or not. *)
Theorem attribute_query_stays_within_requested_blocks :
  forall OSL_VERSION this sg derivatives object type name index val (i : nat),
    (elements_allowed derivatives type <= i)%nat ->
    snd (get_array_attribute OSL_VERSION this sg derivatives object type name index val)
      !! i
    = val !! i.
Proof.
  intros V this sg d object type name index val i Hi.
  unfold get_array_attribute. destruct (m_attr_getters this !! name).
  - by apply call_getter_within_blocks.
  - by apply get_array_attribute_unlisted_within_blocks.
Qed.

Lemma attribute_query_stays_within_requested_blocks_witness :
  (elements_allowed true TypeFloatArray4 <= 12)%nat
  /\ snd (get_array_attribute example_version OSLToyRenderer_new
            (m_shaderglobals_template OSLToyRenderer_new) true "" TypeFloatArray4
            "camera:screen_window" (-1) {[12%nat := VInt 7]}) !! 12%nat
     = Some (VInt 7).
Proof.
  assert (H : (elements_allowed true TypeFloatArray4 <= 12)%nat)
    by (vm_compute; lia).
  split; [exact H|].
  rewrite (attribute_query_stays_within_requested_blocks
             example_version OSLToyRenderer_new
             (m_shaderglobals_template OSLToyRenderer_new) true "" TypeFloatArray4
             "camera:screen_window" (-1) {[12%nat := VInt 7]} 12 H).
  reflexivity.
Defined.

(** *** Names outside the dispatch table *)

(** X6: a name the table does not list is resolved by the scope alone.
    The empty scope with no element index goes to the userdata fallback,
    and with an element index it fails.  The mouse scope answers "s" and
    "t" as a scalar float when the coordinate is not negative, and fails
    otherwise.  The options scope answers "blahblah" as a float, and fails
    otherwise.  Any other scope fails.  Hence the userdata fallback is
    reached exactly through the empty scope with no element index; a
    failure leaves the buffer as it was. *)
Theorem unlisted_attribute_routing :
  forall OSL_VERSION this sg derivatives object type name index val,
    m_attr_getters this !! name = None ->
    let r :=
      get_array_attribute OSL_VERSION this sg derivatives object type name index val in
    (object = "" -> index = -1 -> r = get_userdata this derivatives name type sg val)
    /\ (object = "" -> index <> -1 -> r = (false, val))
    /\ (object = "mouse" ->
        r = if bool_decide (name = "s") && TypeDesc.eqb_base type TypeDesc.FLOAT
               && (0 <=? m_mouse_x this)
            then (true, store val 0
                          (VFloat ((F32.of_int (m_mouse_x this) + F32.lit 5 10)
                                   / F32.of_int (m_xres this))%f32))
            else if bool_decide (name = "t") && TypeDesc.eqb_base type TypeDesc.FLOAT
                    && (0 <=? m_mouse_y this)
            then (true, store val 0
                          (VFloat ((F32.of_int (m_mouse_y this) + F32.lit 5 10)
                                   / F32.of_int (m_yres this))%f32))
            else (false, val))
    /\ (object = "options" ->
        r = if bool_decide (name = "blahblah") && TypeDesc.eqb type TypeFloat
            then (true, store val 0 (VFloat (F64.to_float (F64.lit 314159 100000))))
            else (false, val))
    /\ (object <> "" -> object <> "mouse" -> object <> "options" -> r = (false, val)).
Proof.
  intros V this sg d object type name index val Hnone r.
  subst r. unfold get_array_attribute. rewrite Hnone.
  unfold get_array_attribute_unlisted, ustringhash_empty.
  split; [|split; [|split; [|split]]].
  - intros -> ->. reflexivity.
  - intros -> Hindex. simpl. rewrite (bool_decide_eq_false_2 _ Hindex). reflexivity.
  - intros ->. reflexivity.
  - intros ->. reflexivity.
  - intros Hempty Hmouse Hoptions.
    rewrite (bool_decide_eq_false_2 _ Hempty), (bool_decide_eq_false_2 _ Hmouse),
      (bool_decide_eq_false_2 _ Hoptions).
    reflexivity.
Qed.

Lemma unlisted_attribute_routing_witness :
  m_attr_getters OSLToyRenderer_new !! "s" = None
  /\ get_array_attribute example_version OSLToyRenderer_new
       (m_shaderglobals_template OSLToyRenderer_new) true "" TypeFloat "s" (-1) ∅
     = get_userdata OSLToyRenderer_new true "s" TypeFloat
         (m_shaderglobals_template OSLToyRenderer_new) ∅
  /\ get_array_attribute example_version OSLToyRenderer_new
       (m_shaderglobals_template OSLToyRenderer_new) true "" TypeFloat "s" 0 ∅
     = (false, ∅)
  /\ get_array_attribute example_version OSLToyRenderer_new
       (m_shaderglobals_template OSLToyRenderer_new) true "mouse" TypeFloat "s" (-1) ∅
     = (false, ∅)
  /\ get_array_attribute example_version OSLToyRenderer_new
       (m_shaderglobals_template OSLToyRenderer_new) true "options" TypeFloat "s" (-1) ∅
     = (false, ∅)
  /\ get_array_attribute example_version OSLToyRenderer_new
       (m_shaderglobals_template OSLToyRenderer_new) true "object" TypeFloat "s" (-1) ∅
     = (false, ∅).
Proof.
  assert (H : m_attr_getters OSLToyRenderer_new !! "s" = None)
    by (vm_compute; reflexivity).
  pose proof (unlisted_attribute_routing example_version OSLToyRenderer_new
                (m_shaderglobals_template OSLToyRenderer_new) true "" TypeFloat "s"
                (-1) ∅ H) as (Huser & _ & _ & _ & _).
  pose proof (unlisted_attribute_routing example_version OSLToyRenderer_new
                (m_shaderglobals_template OSLToyRenderer_new) true "" TypeFloat "s"
                0 ∅ H) as (_ & Hindex & _ & _ & _).
  pose proof (unlisted_attribute_routing example_version OSLToyRenderer_new
                (m_shaderglobals_template OSLToyRenderer_new) true "mouse" TypeFloat
                "s" (-1) ∅ H) as (_ & _ & Hmouse & _ & _).
  pose proof (unlisted_attribute_routing example_version OSLToyRenderer_new
                (m_shaderglobals_template OSLToyRenderer_new) true "options" TypeFloat
                "s" (-1) ∅ H) as (_ & _ & _ & Hoptions & _).
  pose proof (unlisted_attribute_routing example_version OSLToyRenderer_new
                (m_shaderglobals_template OSLToyRenderer_new) true "object" TypeFloat
                "s" (-1) ∅ H) as (_ & _ & _ & _ & Hscope).
  split; [exact H|].
  split; [apply Huser; reflexivity|].
  split; [apply Hindex; [reflexivity | lia]|].
  split; [rewrite Hmouse by reflexivity; vm_compute; reflexivity|].
  split; [rewrite Hoptions by reflexivity; vm_compute; reflexivity|].
  apply Hscope; discriminate.
Defined.

(** X7: the userdata fallback answers "s" and "t" as plain floats and
    nothing else: it succeeds exactly for these two names with the type
    [float]; "s" is the parametric coordinate [u] with its partials
    [dudx], [dudy] when derivatives are asked, "t" is [v] with [dvdx],
    [dvdy]; without derivatives only the coordinate is stored. *)
Theorem userdata_answers_s_and_t_as_float_only :
  forall this derivatives name type sg val,
    (fst (get_userdata this derivatives name type sg val) = true
     <-> (name = "s" \/ name = "t") /\ type = TypeFloat)
    /\ get_userdata this true "s" TypeFloat sg val
       = (true, store_floats val 0 [sg_u sg; sg_dudx sg; sg_dudy sg])
    /\ get_userdata this false "s" TypeFloat sg val
       = (true, store_floats val 0 [sg_u sg])
    /\ get_userdata this true "t" TypeFloat sg val
       = (true, store_floats val 0 [sg_v sg; sg_dvdx sg; sg_dvdy sg])
    /\ get_userdata this false "t" TypeFloat sg val
       = (true, store_floats val 0 [sg_v sg]).
Proof.
  intros this d name type sg val.
  split; [|repeat split].
  unfold get_userdata, TypeDesc.eqb.
  change RS.Hashes.s with "s". change RS.Hashes.t with "t".
  repeat (case_bool_decide; simpl); split; intros Hgoal;
    first [ reflexivity | discriminate Hgoal | tauto
          | destruct Hgoal as [[Hs|Ht] Hty]; congruence ].
Qed.

(** X8: outside the empty scope, a name the table does not list is answered
    without regard to derivatives: the mouse coordinates and the test
    constant store one float even when derivatives are asked. *)
Theorem scoped_unlisted_attribute_ignores_derivatives :
  forall OSL_VERSION this sg object type name index val,
    m_attr_getters this !! name = None ->
    object <> "" ->
    get_array_attribute OSL_VERSION this sg true object type name index val
    = get_array_attribute OSL_VERSION this sg false object type name index val.
Proof.
  intros V this sg object type name index val Hnone Hscope.
  unfold get_array_attribute. rewrite Hnone.
  unfold get_array_attribute_unlisted, ustringhash_empty.
  rewrite (bool_decide_eq_false_2 _ Hscope). reflexivity.
Qed.

Lemma scoped_unlisted_attribute_ignores_derivatives_witness :
  m_attr_getters (with_mouse OSLToyRenderer_new 10 20) !! "s" = None
  /\ "mouse" <> ""
  /\ get_array_attribute example_version (with_mouse OSLToyRenderer_new 10 20)
       (m_shaderglobals_template OSLToyRenderer_new) true "mouse" TypeFloat "s" (-1) ∅
     = (true, {[0%nat := VFloat (F32.lit 21 512)]}).
Proof.
  assert (H : m_attr_getters (with_mouse OSLToyRenderer_new 10 20) !! "s" = None)
    by (vm_compute; reflexivity).
  assert (H' : "mouse" <> "") by discriminate.
  split; [exact H|]. split; [exact H'|].
  rewrite (scoped_unlisted_attribute_ignores_derivatives
             example_version (with_mouse OSLToyRenderer_new 10 20)
             (m_shaderglobals_template OSLToyRenderer_new) "mouse" TypeFloat "s" (-1) ∅
             H H').
  vm_compute. reflexivity.
Defined.

(** *** What a success stores *)

Section FirstElement.

Variable OSL_VERSION : Z.
Variables (this : OSLToyRenderer) (sg : ShaderGlobals).

Lemma call_getter_stores_first getter derivs object type name val :
  fst (call_getter OSL_VERSION getter this sg derivs object type name val) = true ->
  is_Some (snd (call_getter OSL_VERSION getter this sg derivs object type name val)
             !! 0%nat).
Proof.
  destruct getter; simpl;
    [ unfold get_osl_version | unfold get_camera_resolution
    | unfold get_camera_projection | unfold get_camera_pixelaspect
    | unfold get_camera_screen_window | unfold get_camera_fov
    | unfold get_camera_clip | unfold get_camera_clip_near
    | unfold get_camera_clip_far | unfold get_camera_shutter
    | unfold get_camera_shutter_open | unfold get_camera_shutter_close ];
    try destruct (m_screen_window this) as [[[w0 w1] w2] w3];
    unfold TypeDesc.eqb; case_bool_decide; simpl; intros Hok; try discriminate Hok;
    subst type; destruct derivs; simpl;
    rewrite ?lookup_memset_zero; try (case_decide; [vm_compute in *; lia|]);
    unfold store; repeat (rewrite lookup_insert_ne by lia);
    rewrite lookup_insert_eq; eexists; reflexivity.
Qed.

Lemma get_userdata_stores_first derivs name type val :
  fst (get_userdata this derivs name type sg val) = true ->
  is_Some (snd (get_userdata this derivs name type sg val) !! 0%nat).
Proof.
  unfold get_userdata.
  repeat match goal with
    | |- context [if ?c then _ else _] =>
        lazymatch c with
        | context [if _ then _ else _] => fail
        | _ => destruct c
        end
    end; simpl; intros Hok; try discriminate Hok;
    unfold store; repeat (rewrite lookup_insert_ne by lia);
    rewrite lookup_insert_eq; eexists; reflexivity.
Qed.

Lemma get_array_attribute_unlisted_stores_first derivs object type name index val :
  fst (get_array_attribute_unlisted this sg derivs object type name index val) = true ->
  is_Some (snd (get_array_attribute_unlisted this sg derivs object type name index val)
             !! 0%nat).
Proof.
  unfold get_array_attribute_unlisted.
  repeat match goal with
    | |- context [if ?c then _ else _] =>
        lazymatch c with
        | context [if _ then _ else _] => fail
        | _ => destruct c
        end
    end; simpl;
    try apply get_userdata_stores_first;
    intros Hok; try discriminate Hok;
    unfold store; rewrite lookup_insert_eq; eexists; reflexivity.
Qed.

End FirstElement.

(** X9: a query that succeeds has stored the first element of the buffer,
    whatever was asked and whatever the buffer held. *)
Theorem successful_attribute_query_stores_first_element :
  forall OSL_VERSION this sg derivatives object type name index val,
    fst (get_array_attribute OSL_VERSION this sg derivatives object type name index val)
    = true ->
    is_Some
      (snd (get_array_attribute OSL_VERSION this sg derivatives object type name index
              val) !! 0%nat).
Proof.
  intros V this sg d object type name index val.
  unfold get_array_attribute. destruct (m_attr_getters this !! name).
  - apply call_getter_stores_first.
  - apply get_array_attribute_unlisted_stores_first.
Qed.

Lemma successful_attribute_query_stores_first_element_witness :
  fst (get_array_attribute example_version OSLToyRenderer_new
         (m_shaderglobals_template OSLToyRenderer_new) true "options" TypeFloat
         "blahblah" (-1) ∅) = true
  /\ is_Some
       (snd (get_array_attribute example_version OSLToyRenderer_new
               (m_shaderglobals_template OSLToyRenderer_new) true "options" TypeFloat
               "blahblah" (-1) ∅) !! 0%nat).
Proof.
  assert (H : fst (get_array_attribute example_version OSLToyRenderer_new
                     (m_shaderglobals_template OSLToyRenderer_new) true "options"
                     TypeFloat "blahblah" (-1) ∅) = true)
    by (vm_compute; reflexivity).
  split; [exact H|].
  exact (successful_attribute_query_stores_first_element
           example_version OSLToyRenderer_new
           (m_shaderglobals_template OSLToyRenderer_new) true "options" TypeFloat
           "blahblah" (-1) ∅ H).
Defined.

(** *** Registrations and the catalog *)

(** X10: a registration changes the resolution of no other name, forward
    or inverse. *)
Theorem registration_leaves_other_names_alone :
  forall tanf invert this name xform other result time,
    name <> other ->
    get_matrix (name_transform this name xform) result other
    = get_matrix this result other
    /\ get_matrix_time (name_transform this name xform) result other time
       = get_matrix_time this result other time
    /\ get_inverse_matrix tanf invert (name_transform this name xform) result other time
       = get_inverse_matrix tanf invert this result other time.
Proof.
  intros tanf invert this name xform other result time Hne.
  unfold get_matrix, get_matrix_time, get_inverse_matrix, name_transform.
  cbn [m_world_to_camera m_projection m_fov m_hither m_yon m_xres m_yres
       m_named_xforms].
  rewrite (lookup_insert_ne (m_named_xforms this) name other xform Hne).
  repeat split.
Qed.

Lemma registration_leaves_other_names_alone_witness :
  "myspace" <> "other"
  /\ get_matrix
       (name_transform (name_transform OSLToyRenderer_new "other" scale2)
          "myspace" Imath.identity)
       Imath.identity "other"
     = (true, scale2).
Proof.
  assert (H : "myspace" <> "other") by discriminate.
  split; [exact H|].
  rewrite (proj1 (registration_leaves_other_names_alone
                    (fun x => x) (fun m => m)
                    (name_transform OSLToyRenderer_new "other" scale2)
                    "myspace" Imath.identity "other" Imath.identity F32.zero H)).
  vm_compute. reflexivity.
Defined.

(** X11: the built-in names shadow the catalog in the inverse direction
    only: no registration, under whatever name, changes what the inverse
    resolution of a built-in name returns, while the forward resolution of a
    built-in name returns what was registered under it. *)
Theorem builtin_name_shadows_catalog_in_inverse_only :
  forall tanf invert this name xform to result time,
    to ∈ builtin_spaces ->
    get_inverse_matrix tanf invert (name_transform this name xform) result to time
    = get_inverse_matrix tanf invert this result to time
    /\ get_matrix (name_transform this to xform) result to = (true, xform).
Proof.
  intros tanf invert this name xform to result time Hin.
  split; [|apply get_matrix_name_transform].
  unfold builtin_spaces in Hin. apply list_elem_of_In in Hin. simpl in Hin.
  destruct Hin as [<-|[<-|[<-|[<-|[]]]]].
  - rewrite !get_inverse_matrix_camera. reflexivity.
  - rewrite !get_inverse_matrix_screen. reflexivity.
  - rewrite !get_inverse_matrix_NDC. reflexivity.
  - rewrite !get_inverse_matrix_raster. reflexivity.
Qed.

Lemma builtin_name_shadows_catalog_in_inverse_only_witness :
  ("camera" ∈ builtin_spaces)
  /\ get_inverse_matrix (fun x => x) (fun m => m)
       (name_transform OSLToyRenderer_new "camera" scale2) scale2 "camera" F32.zero
     = (true, Imath.identity)
  /\ get_matrix (name_transform OSLToyRenderer_new "camera" scale2) Imath.identity
       "camera"
     = (true, scale2).
Proof.
  assert (H : "camera" ∈ builtin_spaces).
  { unfold builtin_spaces. apply list_elem_of_In. simpl. left. reflexivity. }
  destruct (builtin_name_shadows_catalog_in_inverse_only
              (fun x => x) (fun m => m) OSLToyRenderer_new "camera" scale2 "camera"
              scale2 F32.zero H) as [Hinv _].
  destruct (builtin_name_shadows_catalog_in_inverse_only
              (fun x => x) (fun m => m) OSLToyRenderer_new "camera" scale2 "camera"
              Imath.identity F32.zero H) as [_ Hfwd].
  split; [exact H|].
  split; [rewrite Hinv; vm_compute; reflexivity | exact Hfwd].
Defined.

(** X12: for a name that is not built in, the inverse resolution is the
    forward resolution followed by [Matrix44::invert]: it succeeds exactly
    when the forward one does, with the inverse of its matrix, and when the
    name is unknown it fails and leaves the result matrix as it was. *)
Theorem inverse_of_catalog_name_inverts_forward :
  forall tanf invert this to result time,
    to ∉ builtin_spaces ->
    get_inverse_matrix tanf invert this result to time
    = (if fst (get_matrix this result to)
       then (true, invert (snd (get_matrix this result to)))
       else (false, result))
    /\ (m_named_xforms this !! to = None ->
        get_inverse_matrix tanf invert this result to time = (false, result)).
Proof.
  intros tanf invert this to result time Hto.
  rewrite get_inverse_matrix_named by assumption.
  unfold get_matrix. destruct (m_named_xforms this !! to);
    split; first [reflexivity | intros H; discriminate H].
Qed.

Lemma inverse_of_catalog_name_inverts_forward_witness :
  ("nowhere" ∉ builtin_spaces)
  /\ m_named_xforms OSLToyRenderer_new !! "nowhere" = None
  /\ get_inverse_matrix (fun x => x) (fun m => m) OSLToyRenderer_new scale2
       "nowhere" F32.zero
     = (false, scale2).
Proof.
  assert (Hname : "nowhere" ∉ builtin_spaces).
  { unfold builtin_spaces. intros Hin. apply list_elem_of_In in Hin.
    simpl in Hin. repeat (destruct Hin as [Hin|Hin]; [discriminate Hin|]).
    exact Hin. }
  assert (Hnone : m_named_xforms OSLToyRenderer_new !! "nowhere" = None)
    by reflexivity.
  split; [exact Hname|]. split; [exact Hnone|].
  exact (proj2 (inverse_of_catalog_name_inverts_forward
                  (fun x => x) (fun m => m) OSLToyRenderer_new "nowhere" scale2
                  F32.zero Hname) Hnone).
Defined.

(** *** Calls in sequence *)

(** X13: the calls that set a renderer up compose as expected: of two
    camera configurations the second one alone counts; a configuration and
    a registration can be done in either order; and so can two registrations
    under different names.  In each case the renderer that results is the
    same. *)
Theorem setup_calls_compose :
  forall this w1 p1 f1 h1 y1 xres1 yres1 w2 p2 f2 h2 y2 xres2 yres2
         name1 xform1 name2 xform2,
    name1 <> name2 ->
    camera_params (camera_params this w1 p1 f1 h1 y1 xres1 yres1)
                  w2 p2 f2 h2 y2 xres2 yres2
    = camera_params this w2 p2 f2 h2 y2 xres2 yres2
    /\ camera_params (name_transform this name1 xform1) w2 p2 f2 h2 y2 xres2 yres2
       = name_transform (camera_params this w2 p2 f2 h2 y2 xres2 yres2) name1 xform1
    /\ name_transform (name_transform this name1 xform1) name2 xform2
       = name_transform (name_transform this name2 xform2) name1 xform1.
Proof.
  intros this w1 p1 f1 h1 y1 xres1 yres1 w2 p2 f2 h2 y2 xres2 yres2
         name1 xform1 name2 xform2 Hne.
  split; [reflexivity|]. split; [reflexivity|].
  unfold name_transform; simpl. f_equal.
  apply insert_insert_ne. congruence.
Qed.

Lemma setup_calls_compose_witness :
  "a" <> "b"
  /\ name_transform (name_transform OSLToyRenderer_new "a" scale2) "b" Imath.identity
     = name_transform (name_transform OSLToyRenderer_new "b" Imath.identity) "a" scale2
  /\ camera_params reconfigured_512 Imath.identity RS.Hashes.perspective
       (F32.lit 90 1) (F32.lit 1 10) (F32.lit 1000 1) 256 256
     = camera_params OSLToyRenderer_new Imath.identity RS.Hashes.perspective
         (F32.lit 90 1) (F32.lit 1 10) (F32.lit 1000 1) 256 256.
Proof.
  assert (H : "a" <> "b") by discriminate.
  pose proof (setup_calls_compose
                OSLToyRenderer_new Imath.identity RS.Hashes.perspective
                (F32.lit 90 1) (F32.lit 1 10) (F32.lit 1000 1) 512 512
                Imath.identity RS.Hashes.perspective
                (F32.lit 90 1) (F32.lit 1 10) (F32.lit 1000 1) 256 256
                "a" scale2 "b" Imath.identity H) as (Hlast & _ & Hcomm).
  split; [exact H|]. split; [exact Hcomm | exact Hlast].
Defined.

(** *** Projection *)

(** X14: any projection tag other than "perspective" is treated as
    orthographic: [tanf] and the field of view play no part in the
    resolution of a built-in space, and "screen" is the world-to-camera
    matrix times the orthographic matrix. *)
Theorem non_perspective_projection_is_orthographic :
  forall tanf tanf' invert this result to time fov,
    m_projection this <> "perspective" ->
    get_inverse_matrix tanf invert this result "screen" time
    = (true, m_world_to_camera this ** orthographic_to_screen this)
    /\ get_inverse_matrix tanf invert this result to time
       = get_inverse_matrix tanf' invert
           (camera_params this (m_world_to_camera this) (m_projection this) fov
              (m_hither this) (m_yon this) (m_xres this) (m_yres this))
           result to time.
Proof.
  intros tanf tanf' invert this result to time fov Hproj.
  unfold get_inverse_matrix, camera_params, orthographic_to_screen, depthrange.
  cbn [m_world_to_camera m_projection m_fov m_hither m_yon m_xres m_yres
       m_named_xforms].
  change RS.Hashes.perspective with "perspective".
  rewrite (bool_decide_eq_false_2 _ Hproj).
  split; reflexivity.
Qed.

Lemma non_perspective_projection_is_orthographic_witness :
  m_projection
    (camera_params OSLToyRenderer_new Imath.identity "orthographic"
       (F32.lit 90 1) (F32.lit 1 10) (F32.lit 1000 1) 256 256)
  <> "perspective"
  /\ get_inverse_matrix (fun x => x) (fun m => m)
       (camera_params OSLToyRenderer_new Imath.identity "orthographic"
          (F32.lit 90 1) (F32.lit 1 10) (F32.lit 1000 1) 256 256)
       Imath.identity "screen" F32.zero
     = (true,
        Imath.identity
        ** orthographic_to_screen
             (camera_params OSLToyRenderer_new Imath.identity "orthographic"
                (F32.lit 90 1) (F32.lit 1 10) (F32.lit 1000 1) 256 256)).
Proof.
  assert (H : m_projection
                (camera_params OSLToyRenderer_new Imath.identity "orthographic"
                   (F32.lit 90 1) (F32.lit 1 10) (F32.lit 1000 1) 256 256)
              <> "perspective") by discriminate.
  split; [exact H|].
  exact (proj1 (non_perspective_projection_is_orthographic
                  (fun x => x) (fun x => x) (fun m => m)
                  (camera_params OSLToyRenderer_new Imath.identity "orthographic"
                     (F32.lit 90 1) (F32.lit 1 10) (F32.lit 1000 1) 256 256)
                  Imath.identity "screen" F32.zero F32.zero H)).
Defined.

(** *** Aspect of the image *)

(** A finite non-zero float divided by itself is 1: the quotient of the
    mantissas is exact. *)
Lemma div_self (s : bool) (m : positive) (e : Z) :
  (S754_finite s m e / S754_finite s m e)%f32 = F32.one.
Proof.
  unfold F32.div, SFdiv, SFdiv_core_binary.
  rewrite !Z.sub_diag.
  change (IntDef.Z.min (fexp F32.prec F32.emax 0) 0) with (-24).
  change (0 - -24) with 24.
  cbv iota.
  change (IntDef.Z.div_eucl (IntDef.Z.shiftl (Z.pos m) 24) (Z.pos m))
    with (Z.div_eucl (Z.shiftl (Z.pos m) 24) (Z.pos m)).
  assert (Hq : Z.div_eucl (Z.shiftl (Z.pos m) 24) (Z.pos m) = (16777216, 0)).
  { rewrite Z.shiftl_mul_pow2 by lia. rewrite Z.mul_comm.
    change (2 ^ 24) with 16777216.
    pose proof (Z.div_mul 16777216 (Z.pos m) ltac:(lia)) as Hdiv.
    pose proof (Z.mod_mul 16777216 (Z.pos m) ltac:(lia)) as Hmod.
    unfold Z.div in Hdiv. unfold Z.modulo in Hmod.
    destruct (Z.div_eucl (16777216 * Z.pos m) (Z.pos m)) as [q r].
    congruence. }
  rewrite Hq.
  replace (new_location (Z.pos m) 0) with loc_Exact
    by (unfold new_location; destruct (Z.even (Z.pos m)); reflexivity).
  destruct s; vm_compute; reflexivity.
Qed.

(** X15: when the two resolutions are equal and convert to a finite
    non-zero float, [camera_params] sets the screen window to
    [-1, -1, 1, 1]. *)
Theorem square_resolution_gives_unit_window :
  forall this world_to_camera projection hfov hither yon res,
    is_finite_nonzero (F32.of_int res) = true ->
    m_screen_window
      (camera_params this world_to_camera projection hfov hither yon res res)
    = (F32.neg F32.one, F32.neg F32.one, F32.one, F32.one).
Proof.
  intros this w p f h y res Hres.
  unfold camera_params. cbn [m_screen_window].
  destruct (F32.of_int res) as [| | |s m e]; try discriminate Hres.
  rewrite div_self. vm_compute. reflexivity.
Qed.

Lemma square_resolution_gives_unit_window_witness :
  is_finite_nonzero (F32.of_int 1080) = true
  /\ m_screen_window
       (camera_params OSLToyRenderer_new Imath.identity RS.Hashes.perspective
          (F32.lit 90 1) (F32.lit 1 10) (F32.lit 1000 1) 1080 1080)
     = (F32.neg F32.one, F32.neg F32.one, F32.one, F32.one).
Proof.
  assert (H : is_finite_nonzero (F32.of_int 1080) = true) by (vm_compute; reflexivity).
  split; [exact H|].
  exact (square_resolution_gives_unit_window
           OSLToyRenderer_new Imath.identity RS.Hashes.perspective
           (F32.lit 90 1) (F32.lit 1 10) (F32.lit 1000 1) 1080 H).
Defined.

(** The conversion of a positive integer is not negative. *)
Lemma of_int_positive_sign (p : positive) (s : bool) (m : positive) (e : Z) :
  F32.of_int (Z.pos p) = S754_finite s m e -> s = false.
Proof.
  unfold F32.of_int, binary_normalize, binary_round, binary_round_aux.
  destruct (shl_align p 0 _) as [mz ez].
  destruct (shr_fexp F32.prec F32.emax (Z.pos mz) ez loc_Exact) as [mrs1 e1].
  destruct (shr_fexp F32.prec F32.emax _ e1 loc_Exact) as [mrs2 e2].
  destruct (shr_m mrs2) as [|q|q]; try discriminate.
  destruct (e2 <=? F32.emax - F32.prec); [|discriminate].
  intros H. injection H as <- _ _. reflexivity.
Qed.

(** X16: the resolution is not checked: with a height of zero and a
    positive width that converts to a finite float, [camera_params] stores
    the screen window [-inf, -1, +inf, 1]. *)
Theorem zero_height_gives_unbounded_window :
  forall this world_to_camera projection hfov hither yon xres,
    0 < xres ->
    is_finite_nonzero (F32.of_int xres) = true ->
    m_screen_window
      (camera_params this world_to_camera projection hfov hither yon xres 0)
    = (S754_infinity true, F32.neg F32.one, S754_infinity false, F32.one).
Proof.
  intros this w p f h y xres Hpos Hres.
  unfold camera_params. cbn [m_screen_window].
  destruct xres as [|px|px]; try lia.
  destruct (F32.of_int (Z.pos px)) as [| | |s m e] eqn:E; try discriminate Hres.
  apply of_int_positive_sign in E. subst s. vm_compute. reflexivity.
Qed.

Lemma zero_height_gives_unbounded_window_witness :
  0 < 256
  /\ is_finite_nonzero (F32.of_int 256) = true
  /\ m_screen_window
       (camera_params OSLToyRenderer_new Imath.identity RS.Hashes.perspective
          (F32.lit 90 1) (F32.lit 1 10) (F32.lit 1000 1) 256 0)
     = (S754_infinity true, F32.neg F32.one, S754_infinity false, F32.one).
Proof.
  assert (Hpos : 0 < 256) by lia.
  assert (H : is_finite_nonzero (F32.of_int 256) = true) by (vm_compute; reflexivity).
  split; [exact Hpos|]. split; [exact H|].
  exact (zero_height_gives_unbounded_window
           OSLToyRenderer_new Imath.identity RS.Hashes.perspective
           (F32.lit 90 1) (F32.lit 1 10) (F32.lit 1000 1) 256 Hpos H).
Defined.

(** *** An invariant of the camera members *)

(** X17: on every renderer a program can build, the pixel aspect is 1, the
    shutter is [0, 1] and the screen window is [-aspect, -1, aspect, 1] for
    the aspect [xres / yres] of the resolution in force: the window and the
    resolution never disagree. *)
Theorem reachable_camera_members_agree :
  forall this,
    reachable this ->
    let aspect := (F32.of_int (m_xres this) / F32.of_int (m_yres this) * F32.one)%f32 in
    m_pixelaspect this = F32.one
    /\ m_shutter this = (F32.zero, F32.one)
    /\ m_screen_window this = ((- aspect)%f32, F32.neg F32.one, aspect, F32.one).
Proof.
  induction 1 as [|this w p f h y xr yr _ IH|this name M _ IH|this x y _ IH];
    simpl; first [exact IH | repeat split].
Qed.

Lemma reachable_camera_members_agree_witness :
  reachable (name_transform reconfigured_512 "myspace" scale2)
  /\ m_pixelaspect (name_transform reconfigured_512 "myspace" scale2) = F32.one
  /\ m_screen_window (name_transform reconfigured_512 "myspace" scale2)
     = (F32.neg F32.one, F32.neg F32.one, F32.one, F32.one).
Proof.
  assert (H : reachable (name_transform reconfigured_512 "myspace" scale2)).
  { apply reachable_name_transform. unfold reconfigured_512.
    apply reachable_camera_params. apply reachable_new. }
  destruct (reachable_camera_members_agree _ H) as (Hpa & _ & Hwin).
  split; [exact H|]. split; [exact Hpa|].
  rewrite Hwin. vm_compute. reflexivity.
Defined.
